(** * Answer-span alignment of [SquadExample.preprocess]

    A shallow embedding of the SQuAD preprocessing routine of
    [text-extraction-with-BERT.ipynb] (class [SquadExample], method
    [preprocess]) and the properties of its character-to-token alignment,
    input construction and padding.

    Python values are modelled as follows.
    - [str] is [string]; its characters are code points below 256.
    - [int] is [Z]; [len] results are naturals injected into [Z].
    - a list is a [list]; indexing follows Python (negative indices count
      from the end, an index out of range raises [IndexError]).
    - attributes assigned on [self] during [preprocess] are optional fields
      of the record [SquadExample]: [None] is "attribute not assigned", and
      reading such an attribute raises [AttributeError].
    - the tokenizer is external: it is a parameter of the development. The
      character offsets it reports are positions in the encoded string, hence
      naturals. *)

From Stdlib Require Import ZArith String Ascii Lia.
From stdpp Require Import base tactics option list list_numbers.

Local Open Scope Z_scope.

(** ** Python primitives *)

Inductive exception : Set := IndexError | AttributeError | ValueError.

(** Result of running a piece of Python code: it returns a value or raises. *)
Inductive outcome (A : Type) : Type :=
  | Returned (a : A)
  | Raised (e : exception).
Arguments Returned {A} a.
Arguments Raised {A} e.

Global Instance outcome_ret : MRet outcome := λ A a, Returned a.
Global Instance outcome_bind : MBind outcome := λ A B f m,
  match m with
  | Returned a => f a
  | Raised e => Raised e
  end.

(** [str.isspace] on one character (code points below 256): the ASCII
    separators 9-13 and 28-32, NEXT LINE (133) and NO-BREAK SPACE (160). *)
Definition py_isspace (c : ascii) : bool :=
  let n := nat_of_ascii c in
  ((9 <=? n) && (n <=? 13) || (28 <=? n) && (n <=? 32) || (n =? 133) || (n =? 160))%nat.

(** [s.split()]: the maximal runs of non-whitespace characters of [s].
    [word] is the run being read. *)
Fixpoint split_from (word : string) (s : string) : list string :=
  match s with
  | EmptyString =>
      match word with
      | EmptyString => []
      | _ => [word]
      end
  | String c s' =>
      if py_isspace c then
        match word with
        | EmptyString => split_from EmptyString s'
        | _ => word :: split_from EmptyString s'
        end
      else split_from (word ++ String c EmptyString)%string s'
  end.

Definition py_split (s : string) : list string := split_from EmptyString s.

(** [sep.join(words)] *)
Definition py_join (sep : string) (words : list string) : string :=
  String.concat sep words.

(** [len(s)] for a string, as a Python integer. *)
Definition py_len (s : string) : Z := Z.of_nat (String.length s).

(** [range(a, b)] *)
Definition py_range (a b : Z) : list Z := seqZ a (b - a).

(** [[v] * n]: empty when [n] is not positive. *)
Definition py_repeat {A} (v : A) (n : Z) : list A := replicate (Z.to_nat n) v.

(** Position denoted by the index [i] in a list of length [len]. *)
Definition py_index (len : nat) (i : Z) : option nat :=
  if bool_decide (0 ≤ i < Z.of_nat len) then Some (Z.to_nat i)
  else if bool_decide (- Z.of_nat len ≤ i < 0) then Some (Z.to_nat (Z.of_nat len + i))
  else None.

(** [l[i] = v] *)
Definition py_setitem {A} (l : list A) (i : Z) (v : A) : outcome (list A) :=
  match py_index (length l) i with
  | Some k => Returned (<[k:=v]> l)
  | None => Raised IndexError
  end.

(** [l[i]] *)
Definition py_getitem {A} (l : list A) (i : Z) : outcome A :=
  match py_index (length l) i ≫= (l !!.) with
  | Some x => Returned x
  | None => Raised IndexError
  end.

(** [l[start:stop]] for non-negative bounds. *)
Definition py_slice {A} (l : list A) (start stop : nat) : list A :=
  take (stop - start) (drop start l).

(** [sum(l)] *)
Definition py_sum (l : list Z) : Z := foldr Z.add 0 l.

(** ** The tokenizer interface *)

(** [tokenizers.Encoding]: the attributes read by [preprocess]. *)
Record Encoding : Type := {
  ids : list Z;
  offsets : list (nat * nat)
}.

Record Tokenizer : Type := {
  encode : string → Encoding
}.

(** ** [SquadExample] *)

Record SquadExample : Type := {
  question : string;
  context : string;
  start_char_idx : Z;
  answer_text : string;
  all_answers : list string;
  skip : bool;
  input_ids : option (list Z);
  token_type_ids : option (list Z);
  attention_mask : option (list Z);
  start_token_idx : option Z;
  end_token_idx : option Z;
  context_token_to_char : option (list (nat * nat))
}.

(** [SquadExample.__init__] *)
Definition init (question context : string) (start_char_idx : Z)
    (answer_text : string) (all_answers : list string) : SquadExample :=
  {| question := question;
     context := context;
     start_char_idx := start_char_idx;
     answer_text := answer_text;
     all_answers := all_answers;
     skip := false;
     input_ids := None;
     token_type_ids := None;
     attention_mask := None;
     start_token_idx := None;
     end_token_idx := None;
     context_token_to_char := None |}.

(** [self.skip = True] *)
Definition set_skip (self : SquadExample) : SquadExample :=
  {| question := question self;
     context := context self;
     start_char_idx := start_char_idx self;
     answer_text := answer_text self;
     all_answers := all_answers self;
     skip := true;
     input_ids := input_ids self;
     token_type_ids := token_type_ids self;
     attention_mask := attention_mask self;
     start_token_idx := start_token_idx self;
     end_token_idx := end_token_idx self;
     context_token_to_char := context_token_to_char self |}.

(** The six assignments that end the loop body of [preprocess]. *)
Definition set_inputs (self : SquadExample) (ii tt am : list Z) (s e : Z)
    (offs : list (nat * nat)) : SquadExample :=
  {| question := question self;
     context := context self;
     start_char_idx := start_char_idx self;
     answer_text := answer_text self;
     all_answers := all_answers self;
     skip := skip self;
     input_ids := Some ii;
     token_type_ids := Some tt;
     attention_mask := Some am;
     start_token_idx := Some s;
     end_token_idx := Some e;
     context_token_to_char := Some offs |}.

(** [" ".join(str(text).split())] *)
Definition clean (text : string) : string := py_join " " (py_split text).

(** [for idx in range(start_char_idx, end_char_idx): is_char_in_ans[idx] = 1] *)
Fixpoint mark_chars (idxs : list Z) (is_char_in_ans : list Z) : outcome (list Z) :=
  match idxs with
  | [] => Returned is_char_in_ans
  | idx :: idxs' =>
      is_char_in_ans' ← py_setitem is_char_in_ans idx 1;
      mark_chars idxs' is_char_in_ans'
  end.

Section Aligner.

(** The module-level objects [tokenizer] and [max_len] of the notebook. *)
Variable tokenizer : Tokenizer.
Variable max_len : Z.

(** The loop [for idx, (start, end) in enumerate(tokenized_context.offsets)]
    of [preprocess], from the token of index [idx] on. Everything from the
    emptiness test of [ans_token_idx] to the assignments on [self] is part
    of the loop body, as in the source. *)
Fixpoint token_loop (question : string) (is_char_in_ans : list Z)
    (tokenized_context : Encoding) (toks : list (nat * nat)) (idx : Z)
    (ans_token_idx : list Z) (self : SquadExample) : outcome SquadExample :=
  match toks with
  | [] => Returned self
  | (start, stop) :: toks' =>
      let ans_token_idx :=
        if py_sum (py_slice is_char_in_ans start stop) >? 0
        then ans_token_idx ++ [idx] else ans_token_idx in
      if (length ans_token_idx =? 0)%nat then Returned (set_skip self)
      else
        start_token_idx ← py_getitem ans_token_idx 0;
        end_token_idx ← py_getitem ans_token_idx (-1);
        let tokenized_question := encode tokenizer question in
        let input_ids := ids tokenized_context ++ drop 1 (ids tokenized_question) in
        let token_type_ids :=
          py_repeat 0 (Z.of_nat (length (ids tokenized_context)))
          ++ py_repeat 1 (Z.of_nat (length (drop 1 (ids tokenized_question)))) in
        let attention_mask := py_repeat 1 (Z.of_nat (length input_ids)) in
        let padding_length := max_len - Z.of_nat (length input_ids) in
        if padding_length >? 0 then
          token_loop question is_char_in_ans tokenized_context toks' (idx + 1)
            ans_token_idx
            (set_inputs self
               (input_ids ++ py_repeat 0 padding_length)
               (token_type_ids ++ py_repeat 0 padding_length)
               (attention_mask ++ py_repeat 0 padding_length)
               start_token_idx end_token_idx (offsets tokenized_context))
        else if padding_length <? 0 then Returned (set_skip self)
        else
          token_loop question is_char_in_ans tokenized_context toks' (idx + 1)
            ans_token_idx
            (set_inputs self input_ids token_type_ids attention_mask
               start_token_idx end_token_idx (offsets tokenized_context))
  end.

(** [SquadExample.preprocess] *)
Definition preprocess (self : SquadExample) : outcome SquadExample :=
  let context := context self in
  let question := question self in
  let answer_text := answer_text self in
  let start_char_idx := start_char_idx self in
  let context := clean context in
  let question := clean question in
  let answer := clean answer_text in
  let end_char_idx := start_char_idx + py_len answer in
  if end_char_idx >=? py_len context then Returned (set_skip self)
  else
    is_char_in_ans ←
      mark_chars (py_range start_char_idx end_char_idx)
                 (py_repeat 0 (py_len context));
    let tokenized_context := encode tokenizer context in
    token_loop question is_char_in_ans tokenized_context
      (offsets tokenized_context) 0 [] self.

End Aligner.

(** The value of [max_len] in the notebook. *)
Definition max_len : Z := 384.

(** ** [create_inputs_targets] *)

(** [dataset_dict]: one list per key, in the order of the keys. *)
Module DatasetDict.
Record t : Type := {
  input_ids : list (list Z);
  token_type_ids : list (list Z);
  attention_mask : list (list Z);
  start_token_idx : list Z;
  end_token_idx : list Z
}.
End DatasetDict.

(** [getattr(item, key)] *)
Definition getattr {A} (attribute : option A) : outcome A :=
  match attribute with
  | Some v => Returned v
  | None => Raised AttributeError
  end.

(** The loop [for item in squad_examples] of [create_inputs_targets]. *)
Fixpoint collect_inputs (squad_examples : list SquadExample)
    (dataset_dict : DatasetDict.t) : outcome DatasetDict.t :=
  match squad_examples with
  | [] => Returned dataset_dict
  | item :: squad_examples' =>
      if negb (skip item) then
        v1 ← getattr (input_ids item);
        v2 ← getattr (token_type_ids item);
        v3 ← getattr (attention_mask item);
        v4 ← getattr (start_token_idx item);
        v5 ← getattr (end_token_idx item);
        collect_inputs squad_examples'
          {| DatasetDict.input_ids := DatasetDict.input_ids dataset_dict ++ [v1];
             DatasetDict.token_type_ids :=
               DatasetDict.token_type_ids dataset_dict ++ [v2];
             DatasetDict.attention_mask :=
               DatasetDict.attention_mask dataset_dict ++ [v3];
             DatasetDict.start_token_idx :=
               DatasetDict.start_token_idx dataset_dict ++ [v4];
             DatasetDict.end_token_idx :=
               DatasetDict.end_token_idx dataset_dict ++ [v5] |}
      else collect_inputs squad_examples' dataset_dict
  end.

(** [np.array(rows)] for a list of lists of integers. An array is modelled
    as the list of its rows; rows of different lengths have no array shape
    and NumPy (from version 1.24 on) raises [ValueError]. *)
Definition np_array (rows : list (list Z)) : outcome (list (list Z)) :=
  match rows with
  | [] => Returned rows
  | row :: rows' =>
      if forallb (λ r, (length r =? length row)%nat) rows' then Returned rows
      else Raised ValueError
  end.

(** [create_inputs_targets]: the arrays [x] and [y]. The loop
    [for key in dataset_dict: dataset_dict[key] = np.array(dataset_dict[key])]
    converts the five lists in the order of the keys; the last two are flat
    lists of integers, whose conversion cannot fail. *)
Definition create_inputs_targets (squad_examples : list SquadExample)
    : outcome (list (list (list Z)) * list (list Z)) :=
  dataset_dict ←
    collect_inputs squad_examples
      {| DatasetDict.input_ids := [];
         DatasetDict.token_type_ids := [];
         DatasetDict.attention_mask := [];
         DatasetDict.start_token_idx := [];
         DatasetDict.end_token_idx := [] |};
  x0 ← np_array (DatasetDict.input_ids dataset_dict);
  x1 ← np_array (DatasetDict.token_type_ids dataset_dict);
  x2 ← np_array (DatasetDict.attention_mask dataset_dict);
  let x := [x0; x1; x2] in
  let y := [DatasetDict.start_token_idx dataset_dict;
            DatasetDict.end_token_idx dataset_dict] in
  Returned (x, y).

(** ** Vocabulary of the properties *)

(** The token span [(s, t)] contains a character of the interval [[a, b)]. *)
Definition overlaps (a b : Z) (tok : nat * nat) : Prop :=
  ∃ p : Z, Z.of_nat tok.1 ≤ p < Z.of_nat tok.2 ∧ a ≤ p < b.

Definition overlapsb (a b : Z) (tok : nat * nat) : bool :=
  Z.max a (Z.of_nat tok.1) <? Z.min b (Z.of_nat tok.2).

(** Indices, counted from [idx], of the tokens that satisfy [hit], in order. *)
Fixpoint token_indices (hit : nat * nat → bool) (idx : Z) (toks : list (nat * nat))
    : list Z :=
  match toks with
  | [] => []
  | tok :: toks' =>
      if hit tok then idx :: token_indices hit (idx + 1) toks'
      else token_indices hit (idx + 1) toks'
  end.

(** The answer tokens of a tokenized context for the answer interval
    [[a, b)]: the indices of the tokens overlapping it, in order. *)
Definition answer_tokens (a b : Z) (toks : list (nat * nat)) : list Z :=
  token_indices (overlapsb a b) 0 toks.

(** [i] is the index of the first token of [toks] overlapping [[a, b)]. *)
Definition first_overlap (a b : Z) (toks : list (nat * nat)) (i : Z) : Prop :=
  0 ≤ i ∧ (∃ tok, toks !! Z.to_nat i = Some tok ∧ overlaps a b tok) ∧
  ∀ (k : nat) tok, Z.of_nat k < i → toks !! k = Some tok → ¬ overlaps a b tok.

(** [i] is the index of the last token of [toks] overlapping [[a, b)]. *)
Definition last_overlap (a b : Z) (toks : list (nat * nat)) (i : Z) : Prop :=
  0 ≤ i ∧ (∃ tok, toks !! Z.to_nat i = Some tok ∧ overlaps a b tok) ∧
  ∀ (k : nat) tok, i < Z.of_nat k → toks !! k = Some tok → ¬ overlaps a b tok.

(** No attribute derived by [preprocess] is assigned. *)
Definition no_derived (e : SquadExample) : Prop :=
  input_ids e = None ∧ token_type_ids e = None ∧ attention_mask e = None ∧
  start_token_idx e = None ∧ end_token_idx e = None.

(** All five attributes read by [create_inputs_targets] are assigned and the
    example is not skipped. *)
Definition fully_aligned (e : SquadExample) : Prop :=
  skip e = false ∧ is_Some (input_ids e) ∧ is_Some (token_type_ids e) ∧
  is_Some (attention_mask e) ∧ is_Some (start_token_idx e) ∧
  is_Some (end_token_idx e).

(** [answer] occurs in [context] at character [start]. *)
Definition substring_at (context : string) (start : Z) (answer : string) : Prop :=
  0 ≤ start ∧ start + py_len answer ≤ py_len context ∧
  String.substring (Z.to_nat start) (String.length answer) context = answer.

(** The test of the loop of [preprocess] on one token: some character of its
    span is marked in [is_char_in_ans]. *)
Definition marked (is_char_in_ans : list Z) (tok : nat * nat) : bool :=
  py_sum (py_slice is_char_in_ans tok.1 tok.2) >? 0.

Section Inputs.

Variable tokenizer : Tokenizer.
Variable max_len : Z.

(** The quantities [preprocess] computes from the original fields of [e]. *)
Definition end_char_idx_of (e : SquadExample) : Z :=
  start_char_idx e + py_len (clean (answer_text e)).

Definition tokenized_context_of (e : SquadExample) : Encoding :=
  encode tokenizer (clean (context e)).

Definition tokenized_question_of (e : SquadExample) : Encoding :=
  encode tokenizer (clean (question e)).

(** [input_ids], [token_type_ids] and [attention_mask] before padding. *)
Definition unpadded_input_ids (e : SquadExample) : list Z :=
  ids (tokenized_context_of e) ++ drop 1 (ids (tokenized_question_of e)).

Definition unpadded_token_type_ids (e : SquadExample) : list Z :=
  replicate (length (ids (tokenized_context_of e))) 0
  ++ replicate (length (drop 1 (ids (tokenized_question_of e)))) 1.

Definition unpadded_attention_mask (e : SquadExample) : list Z :=
  replicate (length (unpadded_input_ids e)) 1.

Definition padding_length_of (e : SquadExample) : Z :=
  max_len - Z.of_nat (length (unpadded_input_ids e)).

(** [self] after the six assignments of a loop iteration that neither skips
    nor raises, with the token indices [s] and [t]; the inputs are those of
    the example [e]. *)
Definition stored (e self : SquadExample) (s t : Z) : SquadExample :=
  set_inputs self
    (unpadded_input_ids e ++ py_repeat 0 (padding_length_of e))
    (unpadded_token_type_ids e ++ py_repeat 0 (padding_length_of e))
    (unpadded_attention_mask e ++ py_repeat 0 (padding_length_of e))
    s t (offsets (tokenized_context_of e)).

(** What the loop of [preprocess] for the example [e] leaves in [self], when
    entered at the token of index [idx] with the indices [ans] collected. *)
Definition loop_outcome (e : SquadExample) (is_char_in_ans : list Z)
    (toks : list (nat * nat)) (idx : Z) (ans : list Z) (self : SquadExample)
    : SquadExample :=
  match toks with
  | [] => self
  | tok :: _ =>
      match ans ++ token_indices (marked is_char_in_ans) idx [tok] with
      | [] => set_skip self
      | s :: _ =>
          if padding_length_of e <? 0 then set_skip self
          else stored e self s
                 (default s (last (ans ++ token_indices (marked is_char_in_ans) idx toks)))
      end
  end.

End Inputs.

(** ** Tokenizers used in the examples *)

(** Character spans of the whitespace-separated words of a string, read from
    position [pos]; [cur] is the start of the word being read. *)
Fixpoint word_spans (pos : nat) (cur : option nat) (s : string) : list (nat * nat) :=
  match s with
  | EmptyString =>
      match cur with
      | Some b => [(b, pos)]
      | None => []
      end
  | String c s' =>
      if py_isspace c then
        match cur with
        | Some b => (b, pos) :: word_spans (S pos) None s'
        | None => word_spans (S pos) None s'
        end
      else word_spans (S pos) (Some (default pos cur)) s'
  end.

Definition word_id (span : nat * nat) : Z := 1000 + Z.of_nat (span.2 - span.1).

(** One token per word, no special tokens. *)
Definition word_tokenizer : Tokenizer :=
  {| encode := λ s,
       let spans := word_spans 0 None s in
       {| ids := word_id <$> spans; offsets := spans |} |}.

(** One token per word between the special tokens [CLS] (id 101) and [SEP]
    (id 102), both with the offset pair (0, 0), as a BERT word-piece
    tokenizer reports them. *)
Definition bert_like_tokenizer : Tokenizer :=
  {| encode := λ s,
       let spans := word_spans 0 None s in
       {| ids := 101 :: (word_id <$> spans) ++ [102];
          offsets := (0, 0)%nat :: spans ++ [(0, 0)%nat] |} |}.

(** A tokenizer that produces no token at all. *)
Definition empty_tokenizer : Tokenizer :=
  {| encode := λ _, {| ids := []; offsets := [] |} |}.

(** [n] copies of the word "a", separated by single spaces. *)
Fixpoint words_a (n : nat) : string :=
  match n with
  | O => EmptyString
  | S O => "a"
  | S n' => ("a " ++ words_a n')%string
  end.

(** ** Examples *)

Definition fox : string := "The quick brown fox".

(** The answer "quick" at character 4. *)
Definition example_quick : SquadExample :=
  init "What is quick?" fox 4 "quick" ["quick"%string].

(** The answer "The quick" at character 0. *)
Definition example_the_quick : SquadExample :=
  init "What is quick?" fox 0 "The quick" ["The quick"%string].

(** The answer "fox" at character 16: it ends the context. *)
Definition example_fox : SquadExample :=
  init "Who jumps?" fox 16 "fox" ["fox"%string].

(** A start far behind the end of the context. *)
Definition example_far : SquadExample :=
  init "What is quick?" fox 100 "quick" ["quick"%string].

(** The space between two words as answer interval. *)
Definition example_gap : SquadExample :=
  init "What is quick?" fox 3 "-" ["-"%string].

(** A negative start that still denotes a character of the context. *)
Definition example_wrapped : SquadExample :=
  init "Which letter?" "abcde" (-5) "a" ["a"%string].

(** A negative start before the first character of the context. *)
Definition example_before : SquadExample :=
  init "Which letter?" "abc" (-10) "a" ["a"%string].

(** A context of 400 words: more tokens than [max_len]. *)
Definition example_long : SquadExample :=
  init "Which letter?" (words_a 400) 0 "a" ["a"%string].

Definition example_long_before : SquadExample :=
  init "Which letter?" (words_a 400) (-1000) "a" ["a"%string].

(** The example a run returned, or [self] if it raised. *)
Definition returned (r : outcome SquadExample) (self : SquadExample) : SquadExample :=
  match r with
  | Returned e => e
  | Raised _ => self
  end.

(** [example_the_quick] after [preprocess] with the word tokenizer. *)
Definition aligned_the_quick : SquadExample :=
  returned (preprocess word_tokenizer max_len example_the_quick) example_the_quick.

(** ** [create_squad_examples] *)

(** The SQuAD file read by [json.load]: every object carries the keys the
    loader reads, with values of the types of the SQuAD format. *)
Module Squad.
Record answer : Type := {
  text : string;
  answer_start : Z
}.
Record qa : Type := {
  question : string;
  answers : list answer
}.
Record paragraph : Type := {
  context : string;
  qas : list qa
}.
Record article : Type := {
  paragraphs : list paragraph
}.
Record raw_data : Type := {
  data : list article
}.
End Squad.

Section Loader.

Variable tokenizer : Tokenizer.
Variable max_len : Z.

(** The loop [for qa in para['qas']]. *)
Fixpoint for_qas (context : string) (qas : list Squad.qa)
    (squad_examples : list SquadExample) : outcome (list SquadExample) :=
  match qas with
  | [] => Returned squad_examples
  | qa :: qas' =>
      let question := Squad.question qa in
      first_answer ← py_getitem (Squad.answers qa) 0;
      let answer_text := Squad.text first_answer in
      let all_answers := Squad.text <$> Squad.answers qa in
      first_answer ← py_getitem (Squad.answers qa) 0;
      let start_char_idx := Squad.answer_start first_answer in
      let squad_eg := init question context start_char_idx answer_text all_answers in
      squad_eg ← preprocess tokenizer max_len squad_eg;
      for_qas context qas' (squad_examples ++ [squad_eg])
  end.

(** The loop [for para in item['paragraphs']]. *)
Fixpoint for_paragraphs (paragraphs : list Squad.paragraph)
    (squad_examples : list SquadExample) : outcome (list SquadExample) :=
  match paragraphs with
  | [] => Returned squad_examples
  | para :: paragraphs' =>
      let context := Squad.context para in
      squad_examples ← for_qas context (Squad.qas para) squad_examples;
      for_paragraphs paragraphs' squad_examples
  end.

(** The loop [for item in raw_data['data']]. *)
Fixpoint for_items (items : list Squad.article)
    (squad_examples : list SquadExample) : outcome (list SquadExample) :=
  match items with
  | [] => Returned squad_examples
  | item :: items' =>
      squad_examples ← for_paragraphs (Squad.paragraphs item) squad_examples;
      for_items items' squad_examples
  end.

(** [create_squad_examples] *)
Definition create_squad_examples (raw_data : Squad.raw_data)
    : outcome (list SquadExample) :=
  for_items (Squad.data raw_data) [].

End Loader.

(** ** Vocabulary of the loader and of the cleaning *)

(** The questions of a file with the context of their paragraph, in the order
    of the file. *)
Definition questions_of (raw_data : Squad.raw_data) : list (string * Squad.qa) :=
  item ← Squad.data raw_data;
  para ← Squad.paragraphs item;
  qa ← Squad.qas para;
  [(Squad.context para, qa)].

(** The example [create_squad_examples] builds for a question whose first
    answer is [first_answer]. *)
Definition example_of (context : string) (qa : Squad.qa)
    (first_answer : Squad.answer) : SquadExample :=
  init (Squad.question qa) context (Squad.answer_start first_answer)
    (Squad.text first_answer) (Squad.text <$> Squad.answers qa).

(** What the body of the innermost loop of [create_squad_examples] does for
    one question [cq.2] of a paragraph with the context [cq.1]. *)
Definition process_question (tokenizer : Tokenizer) (max_len : Z)
    (cq : string * Squad.qa) : outcome SquadExample :=
  first_answer ← py_getitem (Squad.answers cq.2) 0;
  preprocess tokenizer max_len (example_of cq.1 cq.2 first_answer).

(** [preprocess] raises on the example: it passes the bounds test with a
    non-empty answer that starts before the character [-len(context)]. *)
Definition start_before_context (e : SquadExample) : Prop :=
  end_char_idx_of e < py_len (clean (context e))
  ∧ start_char_idx e < end_char_idx_of e
  ∧ start_char_idx e < - py_len (clean (context e)).

(** The examples that [create_inputs_targets] keeps. *)
Definition kept (squad_examples : list SquadExample) : list SquadExample :=
  filter (λ item, skip item = false) squad_examples.

(** The five attributes read by [create_inputs_targets] are assigned. *)
Definition has_inputs (e : SquadExample) : Prop :=
  is_Some (input_ids e) ∧ is_Some (token_type_ids e) ∧
  is_Some (attention_mask e) ∧ is_Some (start_token_idx e) ∧
  is_Some (end_token_idx e).

(** The rows have one length. *)
Definition uniform (rows : list (list Z)) : Prop :=
  ∀ r1 r2, r1 ∈ rows → r2 ∈ rows → length r1 = length r2.

(** The values of an attribute on the examples that have it. *)
Definition rows_of (attribute : SquadExample → option (list Z))
    (squad_examples : list SquadExample) : list (list Z) :=
  omap attribute squad_examples.

(** Every encoding starts with a token of empty span, as the encodings of a
    BERT tokenizer do with [CLS] and its offset pair (0, 0). *)
Definition empty_span_first (tokenizer : Tokenizer) : Prop :=
  ∀ s : string, ∃ (start stop : nat) (toks : list (nat * nat)),
    offsets (encode tokenizer s) = (start, stop) :: toks ∧ (stop ≤ start)%nat.

(** Some character of [s] is a whitespace. *)
Fixpoint has_whitespace (s : string) : bool :=
  match s with
  | EmptyString => false
  | String c s' => py_isspace c || has_whitespace s'
  end.

(** A word: a non-empty string without whitespace. *)
Definition is_word (w : string) : Prop :=
  w ≠ EmptyString ∧ has_whitespace w = false.

(** ** A SQuAD file *)

Definition sample_paragraph : Squad.paragraph :=
  {| Squad.context := fox;
     Squad.qas :=
       [ {| Squad.question := "What is quick?";
            Squad.answers := [ {| Squad.text := "The quick"; Squad.answer_start := 0 |} ] |};
         {| Squad.question := "Who jumps?";
            Squad.answers := [ {| Squad.text := "fox"; Squad.answer_start := 16 |};
                               {| Squad.text := "brown fox"; Squad.answer_start := 10 |} ] |} ] |}.

Definition sample_raw_data : Squad.raw_data :=
  {| Squad.data := [ {| Squad.paragraphs := [sample_paragraph] |} ] |}.

(** A question without answer, as the unanswerable questions of SQuAD 2.0. *)
Definition unanswerable_raw_data : Squad.raw_data :=
  {| Squad.data :=
       [ {| Squad.paragraphs :=
              [ {| Squad.context := fox;
                   Squad.qas := [ {| Squad.question := "Who sleeps?";
                                     Squad.answers := [] |} ] |} ] |} ] |}.

(** The examples of [sample_raw_data] with the word tokenizer. *)
Definition sample_examples : list SquadExample :=
  match create_squad_examples word_tokenizer max_len sample_raw_data with
  | Returned l => l
  | Raised _ => []
  end.

(** One token per word followed by the special token [SEP] (id 102) with
    the offset pair (0, 0): every encoding has a token. *)
Definition sep_tokenizer : Tokenizer :=
  {| encode := λ s,
       let spans := word_spans 0 None s in
       {| ids := (word_id <$> spans) ++ [102];
          offsets := spans ++ [(0, 0)%nat] |} |}.

(** The examples of [sample_raw_data] with [sep_tokenizer]. *)
Definition sep_examples : list SquadExample :=
  match create_squad_examples sep_tokenizer max_len sample_raw_data with
  | Returned l => l
  | Raised _ => []
  end.

(** An answer made of whitespace only. *)
Definition example_blank : SquadExample :=
  init "What is quick?" fox 4 "  " ["  "%string].

(** The examples of [sample_raw_data] with the BERT-like tokenizer. *)
Definition bert_examples : list SquadExample :=
  match create_squad_examples bert_like_tokenizer max_len sample_raw_data with
  | Returned l => l
  | Raised _ => []
  end.

(** The arrays [create_inputs_targets] makes of [sep_examples]. *)
Definition sep_arrays : list (list (list Z)) * list (list Z) :=
  match create_inputs_targets sep_examples with
  | Returned xy => xy
  | Raised _ => ([], [])
  end.

(** ** Properties of the Python primitives *)

Section Primitives.

Lemma overlapsb_spec (a b : Z) (tok : nat * nat) :
  overlapsb a b tok = true ↔ overlaps a b tok.
Proof.
  unfold overlapsb, overlaps. rewrite Z.ltb_lt. split.
  - intros H. exists (Z.max a (Z.of_nat tok.1)). lia.
  - intros (p & ? & ?). lia.
Qed.

Lemma overlapsb_false (a b : Z) (tok : nat * nat) :
  overlapsb a b tok = false ↔ ¬ overlaps a b tok.
Proof.
  rewrite <- overlapsb_spec. destruct (overlapsb a b tok); naive_solver.
Qed.

Lemma py_index_lt (n : nat) (i : Z) (k : nat) :
  py_index n i = Some k → (k < n)%nat.
Proof.
  unfold py_index. repeat case_bool_decide; intros [= <-]; lia.
Qed.

Lemma py_index_nonneg (n : nat) (i : Z) :
  0 ≤ i < Z.of_nat n → py_index n i = Some (Z.to_nat i).
Proof. intros. unfold py_index. by rewrite bool_decide_eq_true_2. Qed.

Lemma py_index_is_Some (n : nat) (i : Z) :
  is_Some (py_index n i) ↔ - Z.of_nat n ≤ i < Z.of_nat n.
Proof.
  unfold py_index. repeat case_bool_decide.
  - split; [lia|by eexists].
  - split; [lia|by eexists].
  - split; [by intros [? [=]]|lia].
Qed.

Lemma py_getitem_first {A} (x : A) (l : list A) :
  py_getitem (x :: l) 0 = Returned x.
Proof.
  unfold py_getitem. rewrite py_index_nonneg by (simpl; lia). done.
Qed.

Lemma py_getitem_last {A} (l : list A) (x : A) :
  last l = Some x → py_getitem l (-1) = Returned x.
Proof.
  intros Hl. unfold py_getitem, py_index.
  assert (l ≠ []) as Hne by (intros ->; done).
  assert (0 < length l)%nat by (destruct l; simpl; [done|lia]).
  rewrite bool_decide_eq_false_2 by lia.
  rewrite bool_decide_eq_true_2 by lia. simpl.
  rewrite last_lookup in Hl.
  replace (Z.to_nat (Z.of_nat (length l) + -1)) with (pred (length l)) by lia.
  by rewrite Hl.
Qed.

Lemma py_repeat_of_nat {A} (v : A) (n : nat) :
  py_repeat v (Z.of_nat n) = replicate n v.
Proof. unfold py_repeat. by rewrite Nat2Z.id. Qed.

(** Reading the first and the last element of a non-empty list never raises. *)
Lemma getitem_ends {B} (l : list Z) (s : Z) (rest : list Z)
    (skipped : outcome B) (k : Z → Z → outcome B) :
  l = s :: rest →
  (if (length l =? 0)%nat then skipped
   else start_token_idx ← py_getitem l 0;
        end_token_idx ← py_getitem l (-1);
        k start_token_idx end_token_idx)
  = k s (default s (last l)).
Proof.
  intros ->. cbn [length Nat.eqb]. rewrite py_getitem_first.
  assert (is_Some (last (s :: rest))) as [t Ht] by (by apply last_is_Some).
  rewrite (py_getitem_last _ _ Ht), Ht. done.
Qed.

Lemma py_sum_nonneg (l : list Z) :
  Forall (λ x, 0 ≤ x) l → 0 ≤ py_sum l.
Proof. induction 1; simpl; lia. Qed.

Lemma py_sum_pos (l : list Z) :
  Forall (λ x, 0 ≤ x) l → (0 < py_sum l ↔ ∃ x, x ∈ l ∧ 0 < x).
Proof.
  induction 1 as [|x l Hx Hl IH]; simpl.
  - split; [lia|]. intros (x & Hin & _). by apply elem_of_nil in Hin.
  - pose proof (py_sum_nonneg l Hl). split.
    + intros Hs. destruct (decide (0 < x)).
      * exists x. split; [left|done].
      * assert (0 < py_sum l) as (y & ? & ?)%IH by lia.
        exists y. split; [by right|done].
    + intros (y & [->|Hin]%elem_of_cons & Hy); [lia|].
      assert (0 < py_sum l) by (apply IH; eauto). lia.
Qed.

Lemma elem_of_py_slice {A} (l : list A) (start stop : nat) (x : A) :
  x ∈ py_slice l start stop ↔
  ∃ p : nat, (start ≤ p < stop)%nat ∧ l !! p = Some x.
Proof.
  unfold py_slice. rewrite list_elem_of_lookup. split.
  - intros (i & Hi). apply lookup_take_Some in Hi as [Hi ?].
    rewrite lookup_drop in Hi. exists (start + i)%nat. split; [lia|done].
  - intros (p & ? & Hp). exists (p - start)%nat.
    apply lookup_take_Some. split; [|lia].
    rewrite lookup_drop. by replace (start + (p - start))%nat with p by lia.
Qed.

(** Marking never changes the length of the mask, and succeeds whenever every
    index denotes a position of the mask. *)
Lemma mark_chars_returns (idxs : list Z) (mask : list Z) :
  Forall (λ i, - Z.of_nat (length mask) ≤ i < Z.of_nat (length mask)) idxs →
  ∃ mask', mark_chars idxs mask = Returned mask' ∧ length mask' = length mask.
Proof.
  revert mask. induction idxs as [|i idxs IH]; intros mask Hall; simpl.
  - by exists mask.
  - apply Forall_cons in Hall as [Hi Hall].
    apply py_index_is_Some in Hi as [k Hk].
    unfold py_setitem. rewrite Hk. simpl.
    destruct (IH (<[k:=1]> mask)) as (mask' & -> & Hlen).
    { by rewrite length_insert. }
    exists mask'. by rewrite Hlen, length_insert.
Qed.

(** An index outside of the mask makes the marking raise. *)
Lemma mark_chars_raises (i : Z) (idxs : list Z) (mask : list Z) :
  i < - Z.of_nat (length mask) ∨ Z.of_nat (length mask) ≤ i →
  mark_chars (i :: idxs) mask = Raised IndexError.
Proof.
  intros Hi. simpl. unfold py_setitem.
  destruct (py_index (length mask) i) as [k|] eqn:Hk; [|done].
  assert (is_Some (py_index (length mask) i)) as Hs by eauto.
  apply py_index_is_Some in Hs. lia.
Qed.

(** With non-negative indices the marked positions are the indices. *)
Lemma mark_chars_lookup (idxs : list Z) (mask : list Z) :
  Forall (λ i, 0 ≤ i < Z.of_nat (length mask)) idxs →
  ∃ mask', mark_chars idxs mask = Returned mask' ∧ length mask' = length mask ∧
    ∀ p : nat, (p < length mask)%nat →
      mask' !! p = if decide (Z.of_nat p ∈ idxs) then Some 1 else mask !! p.
Proof.
  revert mask. induction idxs as [|i idxs IH]; intros mask Hall.
  - exists mask. split; [done|]. split; [done|]. intros p _.
    rewrite decide_False; [done|]. apply not_elem_of_nil.
  - apply Forall_cons in Hall as [Hi Hall].
    cbn [mark_chars]. unfold py_setitem. rewrite py_index_nonneg by done.
    cbn [mbind outcome_bind].
    destruct (IH (<[Z.to_nat i:=1]> mask)) as (mask' & -> & Hlen & Hlk).
    { by rewrite length_insert. }
    rewrite length_insert in Hlen, Hlk.
    exists mask'. split; [done|]. split; [done|]. intros p Hp.
    rewrite Hlk by done. rewrite list_lookup_insert.
    destruct (decide (Z.of_nat p ∈ idxs)) as [Hin|Hin].
    + rewrite decide_True; [done|by right].
    + destruct (decide (Z.of_nat p = i)) as [Heq|Hne].
      * rewrite decide_True by (split; lia).
        rewrite decide_True; [done|]. subst i. by left.
      * rewrite decide_False by lia.
        rewrite decide_False; [done|].
        intros [?|?]%elem_of_cons; done.
Qed.

(** The mask built by [preprocess] for a non-negative start: 1 exactly at the
    positions of [[a, b)]. *)
Lemma answer_mask (a b : Z) (n : nat) :
  0 ≤ a → b ≤ Z.of_nat n →
  ∃ mask, mark_chars (py_range a b) (py_repeat 0 (Z.of_nat n)) = Returned mask ∧
    length mask = n ∧
    ∀ p : nat, (p < n)%nat →
      mask !! p = Some (if bool_decide (a ≤ Z.of_nat p < b) then 1 else 0).
Proof.
  intros Ha Hb. unfold py_range, py_repeat. rewrite Nat2Z.id.
  destruct (mark_chars_lookup (seqZ a (b - a)) (replicate n 0))
    as (mask & Hm & Hlen & Hlk).
  { apply Forall_forall. intros i Hi%elem_of_seqZ.
    rewrite length_replicate. lia. }
  rewrite length_replicate in Hlen, Hlk.
  exists mask. split; [done|]. split; [done|]. intros p Hp.
  rewrite Hlk by done.
  destruct (decide (Z.of_nat p ∈ seqZ a (b - a))) as [Hin|Hin];
    rewrite elem_of_seqZ in Hin.
  - rewrite bool_decide_eq_true_2; [done|lia].
  - rewrite bool_decide_eq_false_2 by lia. by rewrite lookup_replicate_2.
Qed.

(** On that mask, the test of the loop is the overlap of the token span with
    the answer interval. *)
Lemma hit_overlapsb (a b : Z) (mask : list Z) (start stop : nat) :
  b ≤ Z.of_nat (length mask) →
  (∀ p : nat, (p < length mask)%nat →
     mask !! p = Some (if bool_decide (a ≤ Z.of_nat p < b) then 1 else 0)) →
  (py_sum (py_slice mask start stop) >? 0) = overlapsb a b (start, stop).
Proof.
  intros Hb Hmask. rewrite Z.gtb_ltb.
  assert (Forall (λ x, 0 ≤ x) (py_slice mask start stop)) as Hnn.
  { apply Forall_forall. intros x (p & _ & Hp)%elem_of_py_slice.
    pose proof (lookup_lt_Some _ _ _ Hp) as Hlt.
    rewrite Hmask in Hp by done. case_bool_decide; simplify_eq; lia. }
  apply eq_true_iff_eq. rewrite Z.ltb_lt, overlapsb_spec, py_sum_pos by done.
  unfold overlaps; simpl. split.
  - intros (x & (p & ? & Hp)%elem_of_py_slice & Hx).
    pose proof (lookup_lt_Some _ _ _ Hp) as Hlt.
    rewrite Hmask in Hp by done. case_bool_decide; simplify_eq; [|lia].
    exists (Z.of_nat p). lia.
  - intros (p & ? & ?). exists 1. split; [|lia].
    apply elem_of_py_slice. exists (Z.to_nat p). split; [lia|].
    rewrite Hmask by lia. rewrite bool_decide_eq_true_2; [done|lia].
Qed.

End Primitives.

(** ** Token indices *)

Section TokenIndices.

Variable hit : nat * nat → bool.

Lemma token_indices_ext (hit' : nat * nat → bool) (idx : Z) (toks : list (nat * nat)) :
  (∀ tok, hit tok = hit' tok) →
  token_indices hit idx toks = token_indices hit' idx toks.
Proof.
  intros Heq. revert idx. induction toks as [|tok toks IH]; intros idx; simpl.
  - done.
  - rewrite Heq. by rewrite !IH.
Qed.

Lemma token_indices_bounds (idx : Z) (toks : list (nat * nat)) (x : Z) :
  x ∈ token_indices hit idx toks → idx ≤ x < idx + Z.of_nat (length toks).
Proof.
  revert idx. induction toks as [|tok toks IH]; intros idx; simpl.
  - by intros ?%elem_of_nil.
  - destruct (hit tok).
    + intros [->|Hin%IH]%elem_of_cons; lia.
    + intros Hin%IH. lia.
Qed.

Lemma token_indices_nil (idx : Z) (toks : list (nat * nat)) :
  token_indices hit idx toks = [] ↔ ∀ tok, tok ∈ toks → hit tok = false.
Proof.
  revert idx. induction toks as [|tok toks IH]; intros idx; simpl.
  - split; [|done]. by intros _ tok ?%elem_of_nil.
  - destruct (hit tok) eqn:Hh.
    + split; [done|]. intros Hall.
      rewrite Hall in Hh; [done|by left].
    + rewrite IH. split.
      * intros Hall tok' [->|?]%elem_of_cons; auto.
      * intros Hall tok' ?. apply Hall. by right.
Qed.

(** The head of the list is the index of the first token satisfying [hit]. *)
Lemma token_indices_head (idx : Z) (toks : list (nat * nat)) (i : Z) :
  head (token_indices hit idx toks) = Some i →
  idx ≤ i ∧
  (∃ tok, toks !! Z.to_nat (i - idx) = Some tok ∧ hit tok = true) ∧
  ∀ (k : nat) tok, Z.of_nat k < i - idx → toks !! k = Some tok → hit tok = false.
Proof.
  revert idx. induction toks as [|tok toks IH]; intros idx; simpl.
  - done.
  - destruct (hit tok) eqn:Hh; simpl.
    + intros [= <-]. split; [lia|]. split.
      * exists tok. by rewrite Z.sub_diag.
      * intros k tok' Hk. lia.
    + intros (Hle & (tok' & Htok' & Hhit) & Hbefore)%IH.
      split; [lia|]. split.
      * exists tok'. split; [|done].
        replace (Z.to_nat (i - idx)) with (S (Z.to_nat (i - (idx + 1)))) by lia.
        done.
      * intros [|k] tok'' Hk Hlk; simpl in Hlk.
        -- by simplify_eq.
        -- apply (Hbefore k); [lia|done].
Qed.

(** The last element is the index of the last token satisfying [hit]. *)
Lemma token_indices_last (idx : Z) (toks : list (nat * nat)) (i : Z) :
  last (token_indices hit idx toks) = Some i →
  idx ≤ i ∧
  (∃ tok, toks !! Z.to_nat (i - idx) = Some tok ∧ hit tok = true) ∧
  ∀ (k : nat) tok, i - idx < Z.of_nat k → toks !! k = Some tok → hit tok = false.
Proof.
  revert idx. induction toks as [|tok toks IH]; intros idx; simpl.
  - done.
  - destruct (hit tok) eqn:Hh.
    + destruct (token_indices hit (idx + 1) toks) as [|j rest] eqn:Hrest.
      * simpl. intros [= <-]. split; [lia|]. split.
        -- exists tok. by rewrite Z.sub_diag.
        -- intros [|k] tok' Hk Hlk; [lia|]. simpl in Hlk.
           apply token_indices_nil with (tok := tok') in Hrest; [done|].
           by eapply list_elem_of_lookup_2.
      * rewrite last_cons_cons. rewrite <- Hrest.
        intros (Hle & (tok' & Htok' & Hhit) & Hafter)%IH.
        split; [lia|]. split.
        -- exists tok'. split; [|done].
           replace (Z.to_nat (i - idx)) with (S (Z.to_nat (i - (idx + 1)))) by lia.
           done.
        -- intros [|k] tok'' Hk Hlk; [lia|]. simpl in Hlk.
           apply (Hafter k); [lia|done].
    + intros (Hle & (tok' & Htok' & Hhit) & Hafter)%IH.
      split; [lia|]. split.
      * exists tok'. split; [|done].
        replace (Z.to_nat (i - idx)) with (S (Z.to_nat (i - (idx + 1)))) by lia.
        done.
      * intros [|k] tok'' Hk Hlk; [lia|]. simpl in Hlk.
        apply (Hafter k); [lia|done].
Qed.

Lemma token_indices_head_le_last (idx : Z) (toks : list (nat * nat)) (i j : Z) :
  head (token_indices hit idx toks) = Some i →
  last (token_indices hit idx toks) = Some j →
  i ≤ j.
Proof.
  revert idx. induction toks as [|tok toks IH]; intros idx; simpl.
  - done.
  - destruct (hit tok); [|apply IH].
    simpl. intros [= <-] Hl.
    assert (j ∈ idx :: token_indices hit (idx + 1) toks) as Hin.
    { rewrite last_lookup in Hl. by eapply list_elem_of_lookup_2. }
    apply elem_of_cons in Hin as [->|Hin%token_indices_bounds]; lia.
Qed.

End TokenIndices.

(** ** The loop of [preprocess] in closed form *)

Section Loop.

Variable tokenizer : Tokenizer.
Variable max_len : Z.
Variable e : SquadExample.
Variable is_char_in_ans : list Z.

Lemma token_loop_cons (tok : nat * nat) (toks : list (nat * nat)) (idx : Z)
    (ans : list Z) (self : SquadExample) :
  token_loop tokenizer max_len (clean (question e)) is_char_in_ans
    (tokenized_context_of tokenizer e) (tok :: toks) idx ans self
  = match ans ++ token_indices (marked is_char_in_ans) idx [tok] with
    | [] => Returned (set_skip self)
    | s :: rest =>
        if padding_length_of tokenizer max_len e <? 0 then Returned (set_skip self)
        else token_loop tokenizer max_len (clean (question e)) is_char_in_ans
               (tokenized_context_of tokenizer e) toks (idx + 1) (s :: rest)
               (stored tokenizer max_len e self s (default s (last (s :: rest))))
    end.
Proof.
  destruct tok as [start stop]. cbn [token_loop token_indices].
  change (py_sum (py_slice is_char_in_ans start stop) >? 0)
    with (marked is_char_in_ans (start, stop)).
  assert ((if marked is_char_in_ans (start, stop) then ans ++ [idx] else ans)
          = ans ++ (if marked is_char_in_ans (start, stop) then [idx] else []))
    as ->.
  { destruct (marked is_char_in_ans (start, stop)); [done|by rewrite app_nil_r]. }
  destruct (ans ++ _) as [|s rest] eqn:Hans; [done|].
  rewrite (getitem_ends _ s rest) by done.
  rewrite !py_repeat_of_nat.
  change (encode tokenizer (clean (question e)))
    with (tokenized_question_of tokenizer e).
  fold (unpadded_input_ids tokenizer e).
  fold (unpadded_token_type_ids tokenizer e).
  fold (unpadded_attention_mask tokenizer e).
  fold (padding_length_of tokenizer max_len e).
  fold (stored tokenizer max_len e self s (default s (last (s :: rest)))).
  rewrite Z.gtb_ltb.
  destruct (Z.ltb_spec 0 (padding_length_of tokenizer max_len e)) as [Hpos|Hle].
  - by rewrite (proj2 (Z.ltb_ge _ _)) by lia.
  - destruct (Z.ltb_spec (padding_length_of tokenizer max_len e) 0)
      as [Hneg|Hge]; [done|].
    do 2 f_equal. unfold stored.
    replace (padding_length_of tokenizer max_len e) with 0 by lia.
    unfold py_repeat. simpl. by rewrite !app_nil_r.
Qed.

Lemma stored_stored (self : SquadExample) (s t s' t' : Z) :
  stored tokenizer max_len e (stored tokenizer max_len e self s t) s' t'
  = stored tokenizer max_len e self s' t'.
Proof. done. Qed.

Lemma token_loop_outcome (toks : list (nat * nat)) (idx : Z) (ans : list Z)
    (self : SquadExample) :
  token_loop tokenizer max_len (clean (question e)) is_char_in_ans
    (tokenized_context_of tokenizer e) toks idx ans self
  = Returned (loop_outcome tokenizer max_len e is_char_in_ans toks idx ans self).
Proof.
  revert idx ans self.
  induction toks as [|tok toks IH]; intros idx ans self; [done|].
  rewrite token_loop_cons. unfold loop_outcome at 1.
  assert (ans ++ token_indices (marked is_char_in_ans) idx (tok :: toks)
          = (ans ++ token_indices (marked is_char_in_ans) idx [tok])
            ++ token_indices (marked is_char_in_ans) (idx + 1) toks) as ->.
  { cbn [token_indices].
    destruct (marked is_char_in_ans tok); [|by rewrite app_nil_r].
    by rewrite <- app_assoc. }
  destruct (ans ++ token_indices (marked is_char_in_ans) idx [tok])
    as [|s rest]; [done|].
  destruct (padding_length_of tokenizer max_len e <? 0) eqn:Hpad; [done|].
  rewrite IH. f_equal. destruct toks as [|tok' toks].
  - cbn [loop_outcome token_indices]. by rewrite app_nil_r.
  - unfold loop_outcome.
    assert (∃ rest', (s :: rest)
                     ++ token_indices (marked is_char_in_ans) (idx + 1) [tok']
                     = s :: rest') as [rest' ->] by (by eexists).
    rewrite Hpad. apply stored_stored.
Qed.

End Loop.

(** ** [preprocess] in closed form *)

Section Preprocess.

Variable tokenizer : Tokenizer.
Variable max_len : Z.

Lemma loop_outcome_top (e : SquadExample) (mask : list Z)
    (toks : list (nat * nat)) (self : SquadExample) :
  loop_outcome tokenizer max_len e mask toks 0 [] self
  = match toks with
    | [] => self
    | tok :: _ =>
        if marked mask tok && negb (padding_length_of tokenizer max_len e <? 0)
        then stored tokenizer max_len e self 0
               (default 0 (last (token_indices (marked mask) 0 toks)))
        else set_skip self
    end.
Proof.
  destruct toks as [|tok toks]; [done|].
  unfold loop_outcome. cbn [token_indices app].
  destruct (marked mask tok); [|done].
  by destruct (padding_length_of tokenizer max_len e <? 0).
Qed.

Lemma preprocess_unfold (self : SquadExample) :
  preprocess tokenizer max_len self
  = if end_char_idx_of self >=? py_len (clean (context self))
    then Returned (set_skip self)
    else
      mask ← mark_chars (py_range (start_char_idx self) (end_char_idx_of self))
                        (py_repeat 0 (py_len (clean (context self))));
      Returned
        (match offsets (tokenized_context_of tokenizer self) with
         | [] => self
         | tok :: _ =>
             if marked mask tok
                && negb (padding_length_of tokenizer max_len self <? 0)
             then stored tokenizer max_len self self 0
                    (default 0 (last (token_indices (marked mask) 0
                       (offsets (tokenized_context_of tokenizer self)))))
             else set_skip self
         end).
Proof.
  unfold preprocess. fold (end_char_idx_of self).
  destruct (end_char_idx_of self >=? py_len (clean (context self))); [done|].
  destruct (mark_chars _ _) as [mask|ex]; [|done].
  cbn [mbind outcome_bind].
  fold (tokenized_context_of tokenizer self).
  by rewrite token_loop_outcome, loop_outcome_top.
Qed.

(** The answer mask of an example with a non-negative start that passes the
    bounds test: the loop test is the overlap with the answer interval. *)
Lemma preprocess_mask (self : SquadExample) :
  0 ≤ start_char_idx self →
  end_char_idx_of self < py_len (clean (context self)) →
  ∃ mask,
    mark_chars (py_range (start_char_idx self) (end_char_idx_of self))
               (py_repeat 0 (py_len (clean (context self))))
    = Returned mask
    ∧ ∀ tok, marked mask tok
             = overlapsb (start_char_idx self) (end_char_idx_of self) tok.
Proof.
  intros Hstart Hend. unfold py_len in *.
  destruct (answer_mask (start_char_idx self) (end_char_idx_of self)
              (String.length (clean (context self))))
    as (mask & Hmask & Hlen & Hlk); [done|lia|].
  exists mask. split; [done|]. intros [start stop]. unfold marked.
  apply hit_overlapsb; rewrite Hlen; [lia|done].
Qed.

(** Without the assumption on the sign of the start, the marking still
    succeeds when every index of the range denotes a character. *)
Lemma preprocess_mask_returns (self : SquadExample) :
  - py_len (clean (context self)) ≤ start_char_idx self →
  end_char_idx_of self < py_len (clean (context self)) →
  ∃ mask,
    mark_chars (py_range (start_char_idx self) (end_char_idx_of self))
               (py_repeat 0 (py_len (clean (context self))))
    = Returned mask.
Proof.
  intros Hstart Hend. unfold py_len in *.
  destruct (mark_chars_returns
              (py_range (start_char_idx self) (end_char_idx_of self))
              (py_repeat 0 (Z.of_nat (String.length (clean (context self))))))
    as (mask & Hmask & _); [|by exists mask].
  rewrite py_repeat_of_nat, length_replicate.
  apply Forall_forall. intros i Hi%elem_of_seqZ. lia.
Qed.

(** The three ways [preprocess] returns. *)
Lemma preprocess_Returned (self e' : SquadExample) :
  preprocess tokenizer max_len self = Returned e' →
  e' = set_skip self
  ∨ (e' = self ∧ offsets (tokenized_context_of tokenizer self) = [])
  ∨ ∃ mask t,
      e' = stored tokenizer max_len self self 0 t
      ∧ 0 ≤ padding_length_of tokenizer max_len self
      ∧ head (token_indices (marked mask) 0
                (offsets (tokenized_context_of tokenizer self))) = Some 0
      ∧ last (token_indices (marked mask) 0
                (offsets (tokenized_context_of tokenizer self))) = Some t
      ∧ mark_chars (py_range (start_char_idx self) (end_char_idx_of self))
                   (py_repeat 0 (py_len (clean (context self))))
        = Returned mask.
Proof.
  rewrite preprocess_unfold.
  destruct (end_char_idx_of self >=? _); [intros [= <-]; by left|].
  destruct (mark_chars _ _) as [mask|ex] eqn:Hmask; [|done].
  cbn [mbind outcome_bind].
  destruct (offsets (tokenized_context_of tokenizer self)) as [|tok toks] eqn:Htoks.
  { intros [= <-]. right. by left. }
  destruct (marked mask tok) eqn:Hhit; [|intros [= <-]; by left].
  destruct (Z.ltb_spec (padding_length_of tokenizer max_len self) 0) as [Hneg|Hge];
    [intros [= <-]; by left|].
  cbn [andb negb]. intros [= <-]. right. right.
  assert (is_Some (last (token_indices (marked mask) 0 (tok :: toks)))) as [t Ht].
  { apply last_is_Some. cbn [token_indices]. by rewrite Hhit. }
  exists mask, t. cbn [token_indices] in Ht |- *. rewrite Ht.
  split; [done|]. split; [lia|]. split; [|done].
  by rewrite Hhit.
Qed.

End Preprocess.

(** ** Properties of [preprocess] *)

Section Properties.

Variable tokenizer : Tokenizer.
Variable max_len : Z.

(** A freshly built example that [preprocess] returns not skipped, for a
    context with at least one token, carries the stored inputs. *)
Lemma preprocess_not_skipped (q c : string) (s : Z) (a : string)
    (aa : list string) (e' : SquadExample) :
  preprocess tokenizer max_len (init q c s a aa) = Returned e' →
  skip e' = false →
  (e' = init q c s a aa
   ∧ offsets (tokenized_context_of tokenizer (init q c s a aa)) = [])
  ∨ ∃ mask t,
      e' = stored tokenizer max_len (init q c s a aa) (init q c s a aa) 0 t
      ∧ 0 ≤ padding_length_of tokenizer max_len (init q c s a aa)
      ∧ head (token_indices (marked mask) 0
                (offsets (tokenized_context_of tokenizer (init q c s a aa))))
        = Some 0
      ∧ last (token_indices (marked mask) 0
                (offsets (tokenized_context_of tokenizer (init q c s a aa))))
        = Some t
      ∧ mark_chars (py_range s (end_char_idx_of (init q c s a aa)))
                   (py_repeat 0 (py_len (clean c)))
        = Returned mask.
Proof.
  intros [->|[?|?]]%preprocess_Returned Hskip; [done|by left|by right].
Qed.


(** For every example whose tokenized context has at least one token, if
    [preprocess] returns it not skipped then [start_token_idx] and
    [end_token_idx] are assigned, [start_token_idx <= end_token_idx], and both
    lie in [[0, len(tokenized_context.offsets))]. *)
Lemma token_indices_in_range (q c : string) (s : Z) (a : string)
    (aa : list string) (e' : SquadExample) :
  preprocess tokenizer max_len (init q c s a aa) = Returned e' →
  skip e' = false →
  offsets (encode tokenizer (clean c)) ≠ [] →
  ∃ i j : Z,
    start_token_idx e' = Some i ∧ end_token_idx e' = Some j ∧
    0 ≤ i ∧ i ≤ j ∧ j < Z.of_nat (length (offsets (encode tokenizer (clean c)))).
Proof.
  intros Hrun Hskip Hne.
  destruct (preprocess_not_skipped _ _ _ _ _ _ Hrun Hskip)
    as [[_ Hnil]|(mask & t & -> & _ & Hhead & Hlast & _)]; [done|].
  exists 0, t. split; [done|]. split; [done|]. split; [done|].
  pose proof (token_indices_head_le_last _ _ _ _ _ Hhead Hlast).
  split; [done|].
  assert (t ∈ token_indices (marked mask) 0
                (offsets (tokenized_context_of tokenizer (init q c s a aa))))
    as Hin%token_indices_bounds.
  { rewrite last_lookup in Hlast. by eapply list_elem_of_lookup_2. }
  unfold tokenized_context_of in Hin. simpl in Hin. lia.
Qed.

(** C4. If [start_char_idx + len(answer) >= len(context)], with answer and
    context whitespace-normalized, [preprocess] sets [skip] and returns,
    leaving every other attribute as it was. *)
Theorem C4_out_of_bounds_is_skipped (self : SquadExample) :
  py_len (clean (context self))
    ≤ start_char_idx self + py_len (clean (answer_text self)) →
  preprocess tokenizer max_len self = Returned (set_skip self)
  ∧ skip (set_skip self) = true.
Proof.
  intros Hge. split; [|done]. rewrite preprocess_unfold.
  unfold end_char_idx_of. rewrite Z.geb_leb.
  by rewrite (proj2 (Z.leb_le _ _)) by lia.
Qed.

(** In every result that is not skipped, for a context with at least one
    token, the three inputs are assigned and, before the padding: [input_ids]
    is the context token ids followed by the question token ids without the
    first one; [token_type_ids] is 0 at the positions of the context tokens
    and 1 at the positions of the appended question tokens; [attention_mask]
    is 1 at every position. *)
Lemma inputs_before_padding (q c : string) (s : Z) (a : string)
    (aa : list string) (e' : SquadExample) :
  preprocess tokenizer max_len (init q c s a aa) = Returned e' →
  skip e' = false →
  offsets (encode tokenizer (clean c)) ≠ [] →
  let context_ids := ids (encode tokenizer (clean c)) in
  let question_ids := drop 1 (ids (encode tokenizer (clean q))) in
  let n := (length context_ids + length question_ids)%nat in
  ∃ ii tt am : list Z,
    input_ids e' = Some ii ∧ token_type_ids e' = Some tt
    ∧ attention_mask e' = Some am
    ∧ take n ii = context_ids ++ question_ids
    ∧ (∀ k : nat, (k < length context_ids)%nat → tt !! k = Some 0)
    ∧ (∀ k : nat, (length context_ids ≤ k < n)%nat → tt !! k = Some 1)
    ∧ (∀ k : nat, (k < n)%nat → am !! k = Some 1).
Proof.
  intros Hrun Hskip Hne context_ids question_ids n.
  destruct (preprocess_not_skipped _ _ _ _ _ _ Hrun Hskip)
    as [[_ Hnil]|(mask & t & -> & _)]; [done|].
  eexists _, _, _. split; [done|]. split; [done|]. split; [done|].
  unfold unpadded_input_ids, unpadded_token_type_ids, unpadded_attention_mask,
    unpadded_input_ids, tokenized_context_of, tokenized_question_of.
  cbn [question context init].
  fold context_ids question_ids.
  repeat split.
  - apply take_app_length'. by rewrite length_app.
  - intros k Hk. rewrite <- app_assoc.
    rewrite lookup_app_l by (by rewrite length_replicate).
    by apply lookup_replicate_2.
  - intros k Hk. rewrite <- app_assoc.
    rewrite lookup_app_r by (rewrite length_replicate; lia).
    rewrite length_replicate.
    rewrite lookup_app_l by (rewrite length_replicate; lia).
    apply lookup_replicate_2. lia.
  - intros k Hk. rewrite length_app.
    rewrite lookup_app_l by (rewrite length_replicate; lia).
    apply lookup_replicate_2. lia.
Qed.

(** C7 (amended). In every result that is not skipped, for a context with at
    least one token, [input_ids], [token_type_ids] and [attention_mask] are
    assigned, have length [max_len] and hold 0 at every position from the
    unpadded length on. And for every example with
    [start_char_idx >= -len(context)] whose tokenized context has at least one
    token, if the unpadded input is longer than [max_len] the example is
    skipped: nothing is truncated. *)
Theorem C7_padding_and_overflow (q c : string) (s : Z) (a : string)
    (aa : list string) :
  let e := init q c s a aa in
  let n := length (ids (encode tokenizer (clean c))
                   ++ drop 1 (ids (encode tokenizer (clean q)))) in
  (∀ e' : SquadExample,
     preprocess tokenizer max_len e = Returned e' →
     skip e' = false →
     offsets (encode tokenizer (clean c)) ≠ [] →
     ∃ ii tt am : list Z,
       input_ids e' = Some ii ∧ token_type_ids e' = Some tt
       ∧ attention_mask e' = Some am
       ∧ Forall (λ l : list Z,
                   Z.of_nat (length l) = max_len
                   ∧ ∀ k : nat, (n ≤ k < length l)%nat → l !! k = Some 0)
                [ii; tt; am])
  ∧ (- py_len (clean c) ≤ s →
     offsets (encode tokenizer (clean c)) ≠ [] →
     max_len < Z.of_nat n →
     preprocess tokenizer max_len e = Returned (set_skip e)
     ∧ skip (set_skip e) = true ∧ no_derived (set_skip e)).
Proof.
  intros e n. split.
  - intros e' Hrun Hskip Hne.
    destruct (preprocess_not_skipped _ _ _ _ _ _ Hrun Hskip)
      as [[_ Hnil]|(mask & t & -> & Hpad & _)]; [done|].
    fold e in Hpad. unfold padding_length_of in Hpad.
    assert (length (unpadded_input_ids tokenizer e) = n) as Hn by done.
    assert (length (unpadded_token_type_ids tokenizer e) = n) as Hn'.
    { unfold unpadded_token_type_ids. rewrite <- Hn. unfold unpadded_input_ids.
      by rewrite !length_app, !length_replicate. }
    assert (length (unpadded_attention_mask tokenizer e) = n) as Hn''.
    { unfold unpadded_attention_mask. by rewrite length_replicate. }
    assert (∀ l0 : list Z, length l0 = n →
              Z.of_nat (length (l0 ++ py_repeat 0 (padding_length_of tokenizer max_len e)))
              = max_len
              ∧ ∀ k : nat,
                  (n ≤ k < length (l0 ++ py_repeat 0%Z (padding_length_of tokenizer max_len e)))%nat →
                  (l0 ++ py_repeat 0 (padding_length_of tokenizer max_len e)) !! k
                  = Some 0) as Hpadded.
    { intros l0 Hl0. unfold py_repeat, padding_length_of.
      rewrite length_app, length_replicate, Hl0, Hn. split; [lia|].
      intros k Hk. rewrite lookup_app_r by lia.
      apply lookup_replicate_2. lia. }
    eexists _, _, _. split; [done|]. split; [done|]. split; [done|].
    repeat (apply Forall_cons; split; [by apply Hpadded|]).
    apply Forall_nil_2.
  - intros Hstart Hne Hover. split; [|by repeat split].
    rewrite preprocess_unfold.
    destruct (end_char_idx_of e >=? py_len (clean (context e))) eqn:Hguard;
      [done|].
    rewrite Z.geb_leb in Hguard. apply Z.leb_gt in Hguard.
    destruct (preprocess_mask_returns e) as [mask ->]; [done..|].
    cbn [mbind outcome_bind]. f_equal.
    change (offsets (tokenized_context_of tokenizer e))
      with (offsets (encode tokenizer (clean c))).
    destruct (offsets (encode tokenizer (clean c))) as [|tok toks]; [done|].
    assert ((padding_length_of tokenizer max_len e <? 0) = true) as ->.
    { apply Z.ltb_lt. unfold padding_length_of.
      change (length (unpadded_input_ids tokenizer e)) with n. lia. }
    by rewrite andb_false_r.
Qed.


(** [preprocess] raises exactly when the example passes the bounds test with
    a non-empty answer that starts before the character [-len(context)]. *)
Lemma preprocess_raises_iff (self : SquadExample) :
  preprocess tokenizer max_len self = Raised IndexError ↔
  end_char_idx_of self < py_len (clean (context self))
  ∧ start_char_idx self < end_char_idx_of self
  ∧ start_char_idx self < - py_len (clean (context self)).
Proof.
  rewrite preprocess_unfold.
  destruct (end_char_idx_of self >=? py_len (clean (context self))) eqn:Hguard;
    rewrite Z.geb_leb in Hguard.
  { apply Z.leb_le in Hguard. split; [done|lia]. }
  apply Z.leb_gt in Hguard.
  destruct (decide (- py_len (clean (context self)) ≤ start_char_idx self))
    as [Hin|Hout].
  { destruct (preprocess_mask_returns self) as [mask ->]; [done..|].
    split; [done|lia]. }
  destruct (decide (start_char_idx self < end_char_idx_of self)) as [Hne|Hempty].
  - unfold py_range. rewrite seqZ_cons by lia.
    rewrite mark_chars_raises; [split; [lia|done]|].
    unfold py_len. rewrite py_repeat_of_nat, length_replicate.
    unfold py_len in Hout. lia.
  - unfold py_range. rewrite seqZ_nil by lia. split; [done|lia].
Qed.

(** C10 (amended). For every example with a non-negative [start_char_idx],
    if the first token of the tokenized context does not overlap the answer
    interval [[start_char_idx, end_char_idx)], [preprocess] sets [skip] and
    returns, whatever the later tokens are. *)
Theorem C10_first_token_decides (self : SquadExample) (tok : nat * nat)
    (toks : list (nat * nat)) :
  0 ≤ start_char_idx self →
  offsets (encode tokenizer (clean (context self))) = tok :: toks →
  ¬ overlaps (start_char_idx self)
             (start_char_idx self + py_len (clean (answer_text self))) tok →
  preprocess tokenizer max_len self = Returned (set_skip self)
  ∧ skip (set_skip self) = true.
Proof.
  intros Hstart Htoks Hno. split; [|done]. rewrite preprocess_unfold.
  destruct (end_char_idx_of self >=? py_len (clean (context self))) eqn:Hguard;
    [done|].
  rewrite Z.geb_leb in Hguard. apply Z.leb_gt in Hguard.
  destruct (preprocess_mask self) as (mask & -> & Hmarked); [done..|].
  cbn [mbind outcome_bind]. f_equal.
  unfold tokenized_context_of. rewrite Htoks, Hmarked.
  apply overlapsb_false in Hno. unfold end_char_idx_of. by rewrite Hno.
Qed.

(** C3 (amended). For every example with a non-negative [start_char_idx]
    whose tokenized context has at least one token, if no token overlaps the
    answer interval [[start_char_idx, end_char_idx)] then [preprocess] marks
    the example as skipped and assigns no derived attribute. *)
Theorem C3_no_answer_token_is_skipped (q c : string) (s : Z) (a : string)
    (aa : list string) :
  let e := init q c s a aa in
  0 ≤ s →
  offsets (encode tokenizer (clean c)) ≠ [] →
  (∀ tok, tok ∈ offsets (encode tokenizer (clean c)) →
          ¬ overlaps s (s + py_len (clean a)) tok) →
  preprocess tokenizer max_len e = Returned (set_skip e)
  ∧ skip (set_skip e) = true ∧ no_derived (set_skip e).
Proof.
  intros e Hstart Hne Hall. split; [|by repeat split].
  rewrite preprocess_unfold.
  destruct (end_char_idx_of e >=? py_len (clean (context e))) eqn:Hguard;
    [done|].
  rewrite Z.geb_leb in Hguard. apply Z.leb_gt in Hguard.
  destruct (preprocess_mask e) as (mask & -> & Hmarked); [done..|].
  cbn [mbind outcome_bind]. f_equal.
  change (offsets (tokenized_context_of tokenizer e))
    with (offsets (encode tokenizer (clean c))).
  destruct (offsets (encode tokenizer (clean c))) as [|tok toks]; [done|].
  rewrite Hmarked.
  assert (overlapsb (start_char_idx e) (end_char_idx_of e) tok = false) as ->;
    [|done].
  apply overlapsb_false, Hall. by left.
Qed.

(** C5 (amended). In every result that is not skipped, for a non-negative
    [start_char_idx] and a context with at least one token: [start_token_idx]
    and [end_token_idx] are assigned, [start_token_idx] is the index of the
    first token whose span contains a character of
    [[start_char_idx, end_char_idx)] and [end_token_idx] the index of the last
    one; they are the first and the last element of the list of the
    overlapping tokens collected in order. *)
Theorem C5_first_and_last_answer_token (q c : string) (s : Z) (a : string)
    (aa : list string) (e' : SquadExample) :
  0 ≤ s →
  preprocess tokenizer max_len (init q c s a aa) = Returned e' →
  skip e' = false →
  offsets (encode tokenizer (clean c)) ≠ [] →
  let toks := offsets (encode tokenizer (clean c)) in
  let end_char_idx := s + py_len (clean a) in
  ∃ i j : Z,
    start_token_idx e' = Some i ∧ end_token_idx e' = Some j
    ∧ first_overlap s end_char_idx toks i
    ∧ last_overlap s end_char_idx toks j
    ∧ head (answer_tokens s end_char_idx toks) = Some i
    ∧ last (answer_tokens s end_char_idx toks) = Some j.
Proof.
  intros Hstart Hrun Hskip Hne toks end_char_idx.
  set (e := init q c s a aa) in *.
  assert (end_char_idx_of e < py_len (clean (context e))) as Hguard.
  { rewrite preprocess_unfold in Hrun.
    destruct (end_char_idx_of e >=? py_len (clean (context e))) eqn:Hguard.
    - by simplify_eq.
    - rewrite Z.geb_leb in Hguard. by apply Z.leb_gt in Hguard. }
  destruct (preprocess_mask e Hstart Hguard) as (mask' & Hmask' & Hmarked).
  destruct (preprocess_not_skipped _ _ _ _ _ _ Hrun Hskip)
    as [[_ Hnil]|(mask & t & -> & _ & Hhead & Hlast & Hmask)]; [done|].
  fold e in Hhead, Hlast, Hmask.
  assert (mask' = mask) as ->.
  { enough (Returned mask' = Returned mask) by congruence.
    rewrite <- Hmask'. exact Hmask. }
  rewrite (token_indices_ext _ _ _ _ Hmarked) in Hhead, Hlast.
  change (offsets (tokenized_context_of tokenizer e)) with toks in Hhead, Hlast.
  change (start_char_idx e) with s in Hhead, Hlast.
  change (end_char_idx_of e) with end_char_idx in Hhead, Hlast.
  exists 0, t. split; [done|]. split; [done|].
  split; [|split; [|done]].
  - apply token_indices_head in Hhead as (_ & (tok & Htok & Hov) & Hbefore).
    split; [done|]. split.
    + exists tok. split; [done|]. by apply overlapsb_spec.
    + intros k tok' Hk Hlk. apply overlapsb_false. apply (Hbefore k); [lia|done].
  - apply token_indices_last in Hlast as (Hle & (tok & Htok & Hov) & Hafter).
    split; [done|]. split.
    + exists tok. rewrite Z.sub_0_r in Htok. split; [done|].
      by apply overlapsb_spec.
    + intros k tok' Hk Hlk. apply overlapsb_false. apply (Hafter k); [lia|done].
Qed.

(** Two examples with the same original fields are processed the same way:
    [preprocess] raises on both, or applies the same update to both. The
    update sets [skip], or does nothing, or stores the same inputs. *)
Lemma preprocess_same_original (self self' : SquadExample) :
  question self' = question self →
  context self' = context self →
  start_char_idx self' = start_char_idx self →
  answer_text self' = answer_text self →
  match preprocess tokenizer max_len self with
  | Raised ex => preprocess tokenizer max_len self' = Raised ex
  | Returned r =>
      ∃ f : SquadExample → SquadExample,
        r = f self ∧ preprocess tokenizer max_len self' = Returned (f self')
        ∧ (f = set_skip ∨ f = id
           ∨ ∃ t, f = λ x, stored tokenizer max_len self x 0 t)
  end.
Proof.
  intros Hq Hc Hs Ha. rewrite !preprocess_unfold.
  assert (end_char_idx_of self' = end_char_idx_of self) as ->.
  { unfold end_char_idx_of. by rewrite Hs, Ha. }
  assert (tokenized_context_of tokenizer self'
          = tokenized_context_of tokenizer self) as ->.
  { unfold tokenized_context_of. by rewrite Hc. }
  assert (padding_length_of tokenizer max_len self'
          = padding_length_of tokenizer max_len self) as ->.
  { unfold padding_length_of, unpadded_input_ids, tokenized_context_of,
      tokenized_question_of. by rewrite Hq, Hc. }
  assert (∀ x t, stored tokenizer max_len self' x 0 t
                 = stored tokenizer max_len self x 0 t) as Hstored.
  { intros x t. unfold stored, padding_length_of, unpadded_input_ids,
      unpadded_token_type_ids, unpadded_attention_mask, unpadded_input_ids,
      tokenized_context_of, tokenized_question_of. by rewrite Hq, Hc. }
  rewrite Hc, Hs.
  destruct (end_char_idx_of self >=? py_len (clean (context self))).
  { exists set_skip. split; [done|]. split; [done|]. by left. }
  destruct (mark_chars _ _) as [mask|ex]; [|done].
  cbn [mbind outcome_bind].
  destruct (offsets (tokenized_context_of tokenizer self)) as [|tok toks].
  { exists id. split; [done|]. split; [done|]. right. by left. }
  destruct (marked mask tok && _).
  - eexists (λ x, stored tokenizer max_len self x 0 _).
    split; [done|]. split; [by rewrite Hstored|]. right. right. by eexists.
  - exists set_skip. split; [done|]. split; [done|]. by left.
Qed.

(** C9. [preprocess] is a function of the original fields: two examples built
    from the same question, context, start and answer text end the same way,
    with the same [skip] flag and derived attributes. It is idempotent:
    running it again on the example it returned returns that example
    unchanged. And it leaves the original fields as they were. *)
Theorem C9_deterministic_and_idempotent :
  (∀ (q c : string) (s : Z) (a : string) (aa aa' : list string),
     match preprocess tokenizer max_len (init q c s a aa),
           preprocess tokenizer max_len (init q c s a aa') with
     | Returned r, Returned r' =>
         skip r = skip r' ∧ input_ids r = input_ids r'
         ∧ token_type_ids r = token_type_ids r'
         ∧ attention_mask r = attention_mask r'
         ∧ start_token_idx r = start_token_idx r'
         ∧ end_token_idx r = end_token_idx r'
     | Raised ex, Raised ex' => ex = ex'
     | _, _ => False
     end)
  ∧ (∀ self e' : SquadExample,
       preprocess tokenizer max_len self = Returned e' →
       preprocess tokenizer max_len e' = Returned e'
       ∧ question e' = question self ∧ context e' = context self
       ∧ start_char_idx e' = start_char_idx self
       ∧ answer_text e' = answer_text self
       ∧ all_answers e' = all_answers self).
Proof.
  split.
  - intros q c s a aa aa'.
    pose proof (preprocess_same_original (init q c s a aa) (init q c s a aa')
                  eq_refl eq_refl eq_refl eq_refl) as Hsame.
    destruct (preprocess tokenizer max_len (init q c s a aa)) as [r|ex].
    + destruct Hsame as (f & -> & -> & [->|[->|[t ->]]]); done.
    + by rewrite Hsame.
  - intros self e' Hrun.
    assert (question e' = question self ∧ context e' = context self
            ∧ start_char_idx e' = start_char_idx self
            ∧ answer_text e' = answer_text self
            ∧ all_answers e' = all_answers self) as Horig.
    { apply preprocess_Returned in Hrun
        as [->|[[-> _]|(mask & t & -> & _)]]; done. }
    split; [|done]. destruct Horig as (Hq & Hc & Hs & Ha & _).
    pose proof (preprocess_same_original self e' Hq Hc Hs Ha) as Hsame.
    rewrite Hrun in Hsame.
    destruct Hsame as (f & -> & -> & [->|[->|[t ->]]]); done.
Qed.

End Properties.

(** ** [create_inputs_targets] relies on the alignment *)

(** On examples that are fully aligned or skipped, the five attributes of
    every example that is not skipped exist: nothing is raised. *)
Lemma collect_inputs_returns (squad_examples : list SquadExample)
    (dataset_dict : DatasetDict.t) :
  Forall (λ item, fully_aligned item ∨ skip item = true) squad_examples →
  ∃ dataset_dict', collect_inputs squad_examples dataset_dict = Returned dataset_dict'.
Proof.
  intros Hall. revert dataset_dict.
  induction Hall as [|item items Hitem _ IH]; intros dataset_dict.
  - by eexists.
  - cbn [collect_inputs].
    destruct Hitem as [(Hskip & [v1 H1] & [v2 H2] & [v3 H3] & [v4 H4] & [v5 H5])
                      |Hskip]; rewrite Hskip.
    + rewrite H1, H2, H3, H4, H5. apply IH.
    + apply IH.
Qed.

(** An example that is not skipped and has no [input_ids] makes it raise. *)
Lemma create_inputs_targets_raises (item : SquadExample)
    (squad_examples : list SquadExample) :
  skip item = false →
  input_ids item = None →
  create_inputs_targets (item :: squad_examples) = Raised AttributeError.
Proof.
  intros Hskip Hnone. unfold create_inputs_targets. cbn [collect_inputs].
  by rewrite Hskip, Hnone.
Qed.

(** ** The cleaning of the texts *)

Section Cleaning.

Lemma length_append (s1 s2 : string) :
  String.length (s1 ++ s2) = (String.length s1 + String.length s2)%nat.
Proof. induction s1 as [|c s1 IH]; simpl; [done|by rewrite IH]. Qed.

Lemma append_assoc (s1 s2 s3 : string) :
  ((s1 ++ s2) ++ s3 = s1 ++ (s2 ++ s3))%string.
Proof. induction s1 as [|c s1 IH]; simpl; [done|by rewrite IH]. Qed.

Lemma append_empty_r (s : string) : (s ++ "")%string = s.
Proof. induction s as [|c s IH]; simpl; [done|by rewrite IH]. Qed.

Lemma has_whitespace_append (s1 s2 : string) :
  has_whitespace (s1 ++ s2) = has_whitespace s1 || has_whitespace s2.
Proof.
  induction s1 as [|c s1 IH]; simpl; [done|].
  by rewrite IH, orb_assoc.
Qed.

Lemma append_not_empty (s : string) (c : ascii) :
  (s ++ String c "")%string ≠ EmptyString.
Proof. by destruct s. Qed.

(** Reading a run of non-whitespace characters extends the current word. *)
Lemma split_from_run (word run rest : string) :
  has_whitespace run = false →
  split_from word (run ++ rest) = split_from (word ++ run) rest.
Proof.
  revert word. induction run as [|c run IH]; intros word Hrun; simpl.
  - by rewrite append_empty_r.
  - simpl in Hrun. apply orb_false_elim in Hrun as [Hc Hrun].
    rewrite Hc, IH by done. by rewrite append_assoc.
Qed.

(** A space ends the current word. *)
Lemma split_from_space (word rest : string) :
  word ≠ EmptyString →
  split_from word (String " " rest) = word :: split_from "" rest.
Proof. intros Hword. simpl. by destruct word. Qed.

Lemma split_from_words (word s : string) :
  has_whitespace word = false →
  Forall is_word (split_from word s).
Proof.
  revert word. induction s as [|c s IH]; intros word Hword; simpl.
  - destruct word as [|c' word'] eqn:Heq; [done|].
    apply Forall_singleton. by split.
  - destruct (py_isspace c) eqn:Hc.
    + destruct word as [|c' word'] eqn:Heq; [by apply IH|].
      apply Forall_cons. split; [by split|by apply IH].
    + apply IH. rewrite has_whitespace_append. simpl. by rewrite Hword, Hc.
Qed.

Lemma split_join_words (ws : list string) :
  Forall is_word ws → py_split (py_join " " ws) = ws.
Proof.
  unfold py_split, py_join.
  induction 1 as [|w ws [Hne Hw] Hws IH]; [done|].
  destruct ws as [|w' ws].
  - simpl. rewrite <- (append_empty_r w) at 1.
    rewrite split_from_run by done. simpl. by destruct w.
  - change (String.concat " " (w :: w' :: ws))
      with (w ++ String " " (String.concat " " (w' :: ws)))%string.
    rewrite split_from_run by done. simpl (""  ++ w)%string.
    rewrite split_from_space by done. by rewrite IH.
Qed.

Lemma length_join_split_from (word s : string) :
  (String.length (String.concat " " (split_from word s))
   ≤ String.length word + String.length s)%nat.
Proof.
  revert word. induction s as [|c s IH]; intros word.
  - simpl. destruct word; simpl; lia.
  - cbn [split_from]. destruct (py_isspace c).
    + destruct word as [|c' word'] eqn:Heq.
      * specialize (IH ""%string). simpl in *. lia.
      * specialize (IH ""%string).
        destruct (split_from "" s) as [|w ws] eqn:Hsplit.
        -- simpl. lia.
        -- change (String.concat " " (String c' word' :: w :: ws))
             with (String c' word' ++ String " " (String.concat " " (w :: ws)))%string.
           rewrite length_append. simpl in *. lia.
    + specialize (IH (word ++ String c "")%string).
      rewrite length_append in IH. simpl in *. lia.
Qed.

(** X1. Every cleaned text is a sequence of words joined by single spaces. *)
Theorem clean_is_words_joined_by_single_spaces (s : string) :
  ∃ ws : list string, clean s = py_join " " ws ∧ Forall is_word ws.
Proof.
  exists (py_split s). split; [done|]. by apply split_from_words.
Qed.

(** X2. Splitting the join of words gives the words back: a text made of words
    separated by single spaces is left as it is by the cleaning. *)
Theorem clean_keeps_clean_text (ws : list string) :
  Forall is_word ws →
  py_split (py_join " " ws) = ws ∧ clean (py_join " " ws) = py_join " " ws.
Proof.
  intros Hws. unfold clean. by rewrite split_join_words.
Qed.

(** X3. Cleaning a cleaned text changes nothing. *)
Theorem clean_idempotent (s : string) : clean (clean s) = clean s.
Proof.
  unfold clean at 2 3. unfold clean.
  rewrite split_join_words; [done|]. by apply split_from_words.
Qed.

(** X4. Cleaning never lengthens a text. *)
Theorem clean_never_longer (s : string) : py_len (clean s) ≤ py_len s.
Proof.
  unfold py_len, clean, py_join, py_split.
  pose proof (length_join_split_from "" s). simpl in *. lia.
Qed.

End Cleaning.

(** ** More on [preprocess] *)

Section MorePreprocess.

Variable tokenizer : Tokenizer.
Variable max_len : Z.

Lemma mark_chars_Raised (idxs : list Z) (mask : list Z) (ex : exception) :
  mark_chars idxs mask = Raised ex → ex = IndexError.
Proof.
  revert mask. induction idxs as [|i idxs IH]; intros mask; [done|].
  cbn [mark_chars]. unfold py_setitem.
  destruct (py_index (length mask) i); cbn [mbind outcome_bind].
  - apply IH.
  - by intros [= <-].
Qed.

Lemma preprocess_Raised (self : SquadExample) (ex : exception) :
  preprocess tokenizer max_len self = Raised ex → ex = IndexError.
Proof.
  rewrite preprocess_unfold.
  destruct (end_char_idx_of self >=? _); [done|].
  destruct (mark_chars _ _) as [mask|ex'] eqn:Hmask; [done|].
  cbn [mbind outcome_bind]. intros [= <-]. by eapply mark_chars_Raised.
Qed.

Lemma marked_empty_span (mask : list Z) (start stop : nat) :
  (stop ≤ start)%nat → marked mask (start, stop) = false.
Proof.
  intros Hle. unfold marked, py_slice. simpl.
  by replace (stop - start)%nat with 0%nat by lia.
Qed.

(** With a tokenizer whose encodings start with a token of empty span, the
    first iteration of the loop skips the example. *)
Lemma preprocess_empty_span_first (self e' : SquadExample) :
  empty_span_first tokenizer →
  preprocess tokenizer max_len self = Returned e' →
  e' = set_skip self.
Proof.
  intros Hfirst. rewrite preprocess_unfold.
  destruct (end_char_idx_of self >=? _); [by intros [= <-]|].
  destruct (mark_chars _ _) as [mask|ex]; [|done].
  cbn [mbind outcome_bind]. unfold tokenized_context_of.
  destruct (Hfirst (clean (context self))) as (start & stop & toks & -> & Hle).
  rewrite marked_empty_span by done. by intros [= <-].
Qed.

(** X5. [preprocess] raises nothing but [IndexError], and raises it exactly on a
    non-empty answer that passes the bounds test and starts before the
    character [-len(context)]. *)
Theorem preprocess_raises_only_IndexError (self : SquadExample) :
  match preprocess tokenizer max_len self with
  | Returned _ => ¬ start_before_context self
  | Raised ex => ex = IndexError ∧ start_before_context self
  end.
Proof.
  destruct (preprocess tokenizer max_len self) as [e'|ex] eqn:Hrun.
  - intros Hbefore.
    apply (preprocess_raises_iff tokenizer max_len) in Hbefore. congruence.
  - pose proof (preprocess_Raised _ _ Hrun) as ->.
    split; [done|]. by apply preprocess_raises_iff in Hrun.
Qed.

(** X6. For a non-negative start, [preprocess] aligns a freshly built example
    exactly when the answer ends before the last character of the context,
    the first token of the context overlaps the answer interval, and the
    unpadded input is not longer than [max_len]. *)
Theorem preprocess_aligns_iff (q c : string) (s : Z) (a : string)
    (aa : list string) :
  0 ≤ s →
  (∃ e', preprocess tokenizer max_len (init q c s a aa) = Returned e'
         ∧ fully_aligned e')
  ↔ s + py_len (clean a) < py_len (clean c)
    ∧ (∃ tok toks, offsets (encode tokenizer (clean c)) = tok :: toks
                   ∧ overlaps s (s + py_len (clean a)) tok)
    ∧ Z.of_nat (length (ids (encode tokenizer (clean c))
                        ++ drop 1 (ids (encode tokenizer (clean q))))) ≤ max_len.
Proof.
  intros Hstart. set (e := init q c s a aa).
  rewrite preprocess_unfold.
  change (end_char_idx_of e) with (s + py_len (clean a)).
  change (start_char_idx e) with s.
  change (py_len (clean (context e))) with (py_len (clean c)).
  change (offsets (tokenized_context_of tokenizer e))
    with (offsets (encode tokenizer (clean c))).
  assert (padding_length_of tokenizer max_len e
          = max_len - Z.of_nat (length (ids (encode tokenizer (clean c))
                                 ++ drop 1 (ids (encode tokenizer (clean q))))))
    as Hpad by done.
  destruct (s + py_len (clean a) >=? py_len (clean c)) eqn:Hguard;
    rewrite Z.geb_leb in Hguard.
  { apply Z.leb_le in Hguard. split; [|lia].
    intros (e' & [= <-] & Hskip & _). done. }
  apply Z.leb_gt in Hguard.
  destruct (preprocess_mask e Hstart Hguard) as (mask & Hmask & Hmarked).
  change (start_char_idx e) with s in Hmask, Hmarked.
  change (end_char_idx_of e) with (s + py_len (clean a)) in Hmask, Hmarked.
  change (py_len (clean (context e))) with (py_len (clean c)) in Hmask.
  rewrite Hmask. cbn [mbind outcome_bind].
  destruct (offsets (encode tokenizer (clean c))) as [|tok toks].
  { split.
    - intros (e' & [= <-] & _ & [? Hii] & _). done.
    - intros (_ & (tok & toks & Hnil & _) & _). done. }
  rewrite Hmarked.
  destruct (overlapsb s (s + py_len (clean a)) tok) eqn:Hov.
  - apply overlapsb_spec in Hov.
    destruct (Z.ltb_spec (padding_length_of tokenizer max_len e) 0) as [Hneg|Hge].
    + cbn [andb negb]. split; [|lia].
      intros (e' & [= <-] & Hskip & _). done.
    + cbn [andb negb]. split.
      * intros _. split; [done|]. split; [by exists tok, toks|lia].
      * intros _. eexists. split; [done|]. by repeat split.
  - apply overlapsb_false in Hov. cbn [andb]. split.
    + intros (e' & [= <-] & Hskip & _). done.
    + intros (_ & (tok' & toks' & [= <- <-] & Hov') & _). done.
Qed.

(** X7. In every result that is not skipped, for a context with at least one
    token, [start_token_idx] is assigned and is 0, and [context_token_to_char]
    holds the offsets of the tokenized context. *)
Theorem preprocess_start_token_is_first_token (q c : string) (s : Z)
    (a : string) (aa : list string) (e' : SquadExample) :
  preprocess tokenizer max_len (init q c s a aa) = Returned e' →
  skip e' = false →
  offsets (encode tokenizer (clean c)) ≠ [] →
  start_token_idx e' = Some 0
  ∧ context_token_to_char e' = Some (offsets (encode tokenizer (clean c))).
Proof.
  intros Hrun Hskip Hne.
  by destruct (preprocess_not_skipped _ _ _ _ _ _ _ _ Hrun Hskip)
    as [[_ Hnil]|(mask & t & -> & _)].
Qed.

(** X8. With a tokenizer whose encodings start with a token of empty span, as
    those of a BERT tokenizer, no example is ever aligned: whenever
    [preprocess] returns, it has only set [skip]. *)
Theorem preprocess_skips_everything_after_empty_first_span
    (self e' : SquadExample) :
  empty_span_first tokenizer →
  preprocess tokenizer max_len self = Returned e' →
  e' = set_skip self ∧ skip e' = true.
Proof.
  intros Hfirst Hrun.
  by rewrite (preprocess_empty_span_first _ _ Hfirst Hrun).
Qed.

Lemma marked_unmarked_mask (n : Z) (tok : nat * nat) :
  marked (py_repeat 0 n) tok = false.
Proof.
  unfold marked, py_repeat, py_slice.
  rewrite drop_replicate, take_replicate.
  assert (∀ k : nat, py_sum (replicate k 0) = 0) as ->; [|done].
  induction k as [|k IH]; simpl; [done|]. by rewrite IH.
Qed.

(** X9. An answer that is empty once cleaned marks no character: whatever its
    start, the example is skipped as soon as the context has a token, and
    [preprocess] never raises on it. *)
Theorem preprocess_skips_empty_answer (self : SquadExample) :
  clean (answer_text self) = EmptyString →
  offsets (encode tokenizer (clean (context self))) ≠ [] →
  preprocess tokenizer max_len self = Returned (set_skip self).
Proof.
  intros Hempty Htokens. rewrite preprocess_unfold.
  destruct (end_char_idx_of self >=? _); [done|].
  unfold end_char_idx_of, py_range. rewrite Hempty.
  rewrite seqZ_nil by (unfold py_len; simpl; lia).
  cbn [mark_chars mbind outcome_bind]. unfold tokenized_context_of.
  destruct (offsets (encode tokenizer (clean (context self)))) as [|tok toks];
    [done|].
  by rewrite marked_unmarked_mask.
Qed.

End MorePreprocess.

(** ** [create_inputs_targets] in closed form *)

Section Targets.

Lemma kept_cons (item : SquadExample) (items : list SquadExample) :
  kept (item :: items) = if skip item then kept items else item :: kept items.
Proof.
  unfold kept. rewrite filter_cons.
  destruct (skip item); by case_decide.
Qed.

(** The loop appends the attributes of the kept examples to the five lists. *)
Lemma collect_inputs_Returned (squad_examples : list SquadExample)
    (d d' : DatasetDict.t) :
  collect_inputs squad_examples d = Returned d' →
  Forall has_inputs (kept squad_examples)
  ∧ Some <$> DatasetDict.input_ids d'
    = (Some <$> DatasetDict.input_ids d) ++ (input_ids <$> kept squad_examples)
  ∧ Some <$> DatasetDict.token_type_ids d'
    = (Some <$> DatasetDict.token_type_ids d)
      ++ (token_type_ids <$> kept squad_examples)
  ∧ Some <$> DatasetDict.attention_mask d'
    = (Some <$> DatasetDict.attention_mask d)
      ++ (attention_mask <$> kept squad_examples)
  ∧ Some <$> DatasetDict.start_token_idx d'
    = (Some <$> DatasetDict.start_token_idx d)
      ++ (start_token_idx <$> kept squad_examples)
  ∧ Some <$> DatasetDict.end_token_idx d'
    = (Some <$> DatasetDict.end_token_idx d)
      ++ (end_token_idx <$> kept squad_examples).
Proof.
  revert d. induction squad_examples as [|item items IH]; intros d.
  - intros [= <-]. unfold kept. simpl. by rewrite !app_nil_r.
  - cbn [collect_inputs]. rewrite kept_cons.
    destruct (skip item); cbn [negb]; [apply IH|].
    destruct (input_ids item) as [v1|] eqn:H1; [|done].
    destruct (token_type_ids item) as [v2|] eqn:H2; [|done].
    destruct (attention_mask item) as [v3|] eqn:H3; [|done].
    destruct (start_token_idx item) as [v4|] eqn:H4; [|done].
    destruct (end_token_idx item) as [v5|] eqn:H5; [|done].
    cbn [getattr mbind outcome_bind].
    intros (Hall & E1 & E2 & E3 & E4 & E5)%IH. cbn in E1, E2, E3, E4, E5.
    rewrite fmap_app, <- app_assoc in E1. rewrite fmap_app, <- app_assoc in E2.
    rewrite fmap_app, <- app_assoc in E3. rewrite fmap_app, <- app_assoc in E4.
    rewrite fmap_app, <- app_assoc in E5.
    split.
    { apply Forall_cons. split; [|done]. unfold has_inputs.
      rewrite H1, H2, H3, H4, H5. by repeat split. }
    rewrite !fmap_cons, H1, H2, H3, H4, H5. done.
Qed.

Lemma collect_inputs_Raised (squad_examples : list SquadExample)
    (d : DatasetDict.t) (ex : exception) :
  collect_inputs squad_examples d = Raised ex →
  ex = AttributeError ∧ ¬ Forall has_inputs (kept squad_examples).
Proof.
  revert d. induction squad_examples as [|item items IH]; intros d; [done|].
  cbn [collect_inputs]. rewrite kept_cons.
  destruct (skip item); cbn [negb]; [apply IH|].
  assert (∀ A (attribute : option A), attribute = None →
            ¬ is_Some attribute) as Hnone.
  { intros A attribute -> [? ?]. done. }
  destruct (input_ids item) as [v1|] eqn:H1.
  2:{ intros [= <-]. split; [done|].
      intros [(Hs & _) _]%Forall_cons. by eapply Hnone. }
  destruct (token_type_ids item) as [v2|] eqn:H2.
  2:{ intros [= <-]. split; [done|].
      intros [(_ & Hs & _) _]%Forall_cons. by eapply Hnone. }
  destruct (attention_mask item) as [v3|] eqn:H3.
  2:{ intros [= <-]. split; [done|].
      intros [(_ & _ & Hs & _) _]%Forall_cons. by eapply Hnone. }
  destruct (start_token_idx item) as [v4|] eqn:H4.
  2:{ intros [= <-]. split; [done|].
      intros [(_ & _ & _ & Hs & _) _]%Forall_cons. by eapply Hnone. }
  destruct (end_token_idx item) as [v5|] eqn:H5.
  2:{ intros [= <-]. split; [done|].
      intros [(_ & _ & _ & _ & Hs) _]%Forall_cons. by eapply Hnone. }
  cbn [getattr mbind outcome_bind].
  intros [-> Hnot]%IH. split; [done|].
  intros [_ Hall]%Forall_cons. done.
Qed.

Lemma np_array_cases (rows : list (list Z)) :
  (uniform rows ∧ np_array rows = Returned rows)
  ∨ (¬ uniform rows ∧ np_array rows = Raised ValueError).
Proof.
  destruct rows as [|row rows].
  { left. split; [|done]. by intros r1 r2 ?%elem_of_nil. }
  simpl. destruct (forallb _ rows) eqn:Hall.
  - left. split; [|done]. intros r1 r2 Hr1 Hr2.
    assert (∀ r, r ∈ row :: rows → length r = length row) as Hlen.
    { intros r [->|Hr%list_elem_of_In]%elem_of_cons; [done|].
      by apply Nat.eqb_eq, (proj1 (forallb_forall _ _) Hall). }
    by rewrite (Hlen r1), (Hlen r2).
  - right. split; [|done]. intros Hrows.
    rewrite (proj2 (forallb_forall _ _)) in Hall; [done|].
    intros r Hr%list_elem_of_In. apply Nat.eqb_eq.
    apply Hrows; [by right|by left].
Qed.

Lemma classic_uniform (rows : list (list Z)) : uniform rows ∨ ¬ uniform rows.
Proof. destruct (np_array_cases rows) as [[? _]|[? _]]; auto. Qed.

Lemma np_array_uniform (rows : list (list Z)) :
  uniform rows → np_array rows = Returned rows.
Proof. by destruct (np_array_cases rows) as [[_ ?]|[? _]]. Qed.

Lemma np_array_not_uniform (rows : list (list Z)) :
  ¬ uniform rows → np_array rows = Raised ValueError.
Proof. by destruct (np_array_cases rows) as [[? _]|[_ ?]]. Qed.

Lemma np_array_Returned (rows a : list (list Z)) :
  np_array rows = Returned a → a = rows ∧ uniform rows.
Proof.
  intros Hrun. destruct (classic_uniform rows) as [Hu|Hu].
  - rewrite np_array_uniform in Hrun by done. by simplify_eq.
  - by rewrite np_array_not_uniform in Hrun.
Qed.

Lemma rows_of_fmap (attribute : SquadExample → option (list Z))
    (squad_examples : list SquadExample) (rows : list (list Z)) :
  Some <$> rows = attribute <$> squad_examples →
  rows_of attribute squad_examples = rows.
Proof.
  unfold rows_of. revert rows.
  induction squad_examples as [|e l IH]; intros [|row rows]; try done.
  rewrite !fmap_cons. intros [= Hrow Hrows].
  specialize (IH rows Hrows). simpl. rewrite <- Hrow. simpl.
  f_equal. exact IH.
Qed.

Lemma create_inputs_targets_Returned (squad_examples : list SquadExample)
    (x : list (list (list Z))) (y : list (list Z)) :
  create_inputs_targets squad_examples = Returned (x, y) →
  Forall has_inputs (kept squad_examples)
  ∧ ∃ x0 x1 x2 y0 y1,
      x = [x0; x1; x2] ∧ y = [y0; y1]
      ∧ Some <$> x0 = input_ids <$> kept squad_examples
      ∧ Some <$> x1 = token_type_ids <$> kept squad_examples
      ∧ Some <$> x2 = attention_mask <$> kept squad_examples
      ∧ Some <$> y0 = start_token_idx <$> kept squad_examples
      ∧ Some <$> y1 = end_token_idx <$> kept squad_examples
      ∧ uniform x0 ∧ uniform x1 ∧ uniform x2.
Proof.
  unfold create_inputs_targets.
  destruct (collect_inputs squad_examples _) as [d'|ex] eqn:Hcollect; [|done].
  cbn [mbind outcome_bind].
  destruct (np_array (DatasetDict.input_ids d')) as [x0|ex] eqn:H0; [|done].
  destruct (np_array (DatasetDict.token_type_ids d')) as [x1|ex] eqn:H1; [|done].
  destruct (np_array (DatasetDict.attention_mask d')) as [x2|ex] eqn:H2; [|done].
  cbn [mbind outcome_bind]. intros [= <- <-].
  apply np_array_Returned in H0 as [-> ?], H1 as [-> ?], H2 as [-> ?].
  apply collect_inputs_Returned in Hcollect as (Hall & E1 & E2 & E3 & E4 & E5).
  split; [done|]. by eexists _, _, _, _, _.
Qed.

Lemma create_inputs_targets_Raised (squad_examples : list SquadExample)
    (ex : exception) :
  create_inputs_targets squad_examples = Raised ex →
  (ex = AttributeError ∧ ¬ Forall has_inputs (kept squad_examples))
  ∨ (ex = ValueError
     ∧ Forall has_inputs (kept squad_examples)
     ∧ ¬ (uniform (rows_of input_ids (kept squad_examples))
          ∧ uniform (rows_of token_type_ids (kept squad_examples))
          ∧ uniform (rows_of attention_mask (kept squad_examples)))).
Proof.
  unfold create_inputs_targets.
  destruct (collect_inputs squad_examples _) as [d'|ex'] eqn:Hcollect.
  2:{ cbn [mbind outcome_bind]. intros [= <-]. left.
      by apply collect_inputs_Raised in Hcollect. }
  cbn [mbind outcome_bind]. intros Hrun. right.
  apply collect_inputs_Returned in Hcollect as (Hall & E1 & E2 & E3 & _).
  cbn in E1, E2, E3.
  apply rows_of_fmap in E1, E2, E3. rewrite E1, E2, E3.
  destruct (classic_uniform (DatasetDict.input_ids d')) as [U0|U0].
  2:{ rewrite (np_array_not_uniform _ U0) in Hrun. injection Hrun as <-.
      split; [done|]. split; [done|]. by intros [? _]. }
  rewrite (np_array_uniform _ U0) in Hrun. cbn [mbind outcome_bind] in Hrun.
  destruct (classic_uniform (DatasetDict.token_type_ids d')) as [U1|U1].
  2:{ rewrite (np_array_not_uniform _ U1) in Hrun. injection Hrun as <-.
      split; [done|]. split; [done|]. by intros (_ & ? & _). }
  rewrite (np_array_uniform _ U1) in Hrun. cbn [mbind outcome_bind] in Hrun.
  destruct (classic_uniform (DatasetDict.attention_mask d')) as [U2|U2].
  2:{ rewrite (np_array_not_uniform _ U2) in Hrun. injection Hrun as <-.
      split; [done|]. split; [done|]. by intros (_ & _ & ?). }
  by rewrite (np_array_uniform _ U2) in Hrun.
Qed.

(** X10. [create_inputs_targets] keeps the examples that are not skipped, in
    their order: row [k] of each array is the attribute of the [k]-th such
    example, and the skipped examples leave no row. *)
Theorem create_inputs_targets_rows (squad_examples : list SquadExample)
    (x : list (list (list Z))) (y : list (list Z)) :
  create_inputs_targets squad_examples = Returned (x, y) →
  ∃ x0 x1 x2 y0 y1,
    x = [x0; x1; x2] ∧ y = [y0; y1]
    ∧ Some <$> x0 = input_ids <$> kept squad_examples
    ∧ Some <$> x1 = token_type_ids <$> kept squad_examples
    ∧ Some <$> x2 = attention_mask <$> kept squad_examples
    ∧ Some <$> y0 = start_token_idx <$> kept squad_examples
    ∧ Some <$> y1 = end_token_idx <$> kept squad_examples.
Proof.
  intros (_ & x0 & x1 & x2 & y0 & y1 & Hx & Hy & E0 & E1 & E2 & E3 & E4 & _)
    %create_inputs_targets_Returned.
  by exists x0, x1, x2, y0, y1.
Qed.

(** X11. [create_inputs_targets] returns exactly when every example that is
    not skipped has the five attributes and, for each of [input_ids],
    [token_type_ids] and [attention_mask], the rows of these examples have
    one length. It raises [AttributeError] when an attribute is missing, and
    else [ValueError] when rows differ in length. *)
Theorem create_inputs_targets_raises_iff (squad_examples : list SquadExample) :
  match create_inputs_targets squad_examples with
  | Returned _ =>
      Forall has_inputs (kept squad_examples)
      ∧ uniform (rows_of input_ids (kept squad_examples))
      ∧ uniform (rows_of token_type_ids (kept squad_examples))
      ∧ uniform (rows_of attention_mask (kept squad_examples))
  | Raised ex =>
      (ex = AttributeError ∧ ¬ Forall has_inputs (kept squad_examples))
      ∨ (ex = ValueError
         ∧ Forall has_inputs (kept squad_examples)
         ∧ ¬ (uniform (rows_of input_ids (kept squad_examples))
              ∧ uniform (rows_of token_type_ids (kept squad_examples))
              ∧ uniform (rows_of attention_mask (kept squad_examples))))
  end.
Proof.
  destruct (create_inputs_targets squad_examples) as [[x y]|ex] eqn:Hrun.
  - apply create_inputs_targets_Returned in Hrun
      as (Hall & x0 & x1 & x2 & y0 & y1 & _ & _ & E0 & E1 & E2 & _ & _
          & U0 & U1 & U2).
    apply rows_of_fmap in E0, E1, E2. by rewrite E0, E1, E2.
  - by apply create_inputs_targets_Raised.
Qed.

End Targets.

(** ** [create_squad_examples] in closed form *)

Section LoaderProperties.

Variable tokenizer : Tokenizer.
Variable max_len : Z.

Lemma py_getitem_0 {A} (l : list A) :
  py_getitem l 0 = match l with
                   | [] => Raised IndexError
                   | x :: _ => Returned x
                   end.
Proof. destruct l as [|x l]; [done|apply py_getitem_first]. Qed.

Lemma mapM_outcome_app {A B} (f : A → outcome B) (l1 l2 : list A) :
  mapM f (l1 ++ l2)
  = k1 ← mapM f l1; k2 ← mapM f l2; Returned (k1 ++ k2).
Proof.
  induction l1 as [|x l1 IH]; simpl.
  - by destruct (mapM f l2).
  - destruct (f x) as [y|ex]; [|done]. cbn [mbind outcome_bind].
    rewrite IH. destruct (mapM f l1) as [k1|ex]; [|done].
    cbn [mbind outcome_bind]. by destruct (mapM f l2).
Qed.

Lemma mapM_outcome_Returned {A B} (f : A → outcome B) (l : list A) (k : list B) :
  mapM f l = Returned k ↔ Forall2 (λ x y, f x = Returned y) l k.
Proof.
  split.
  - revert k. induction l as [|x l IH]; intros k; simpl.
    + intros [= <-]. constructor.
    + destruct (f x) as [y|ex] eqn:Hx; [|done]. cbn [mbind outcome_bind].
      destruct (mapM f l) as [k'|ex]; [|done]. cbn [mbind outcome_bind].
      intros [= <-]. constructor; [done|by apply IH].
  - induction 1 as [|x y l k Hx _ IH]; simpl; [done|].
    rewrite Hx. cbn [mbind outcome_bind]. by rewrite IH.
Qed.

Lemma mapM_outcome_Raised {A B} (f : A → outcome B) (l : list A) (ex : exception) :
  mapM f l = Raised ex → Exists (λ x, f x = Raised ex) l.
Proof.
  induction l as [|x l IH]; simpl; [done|].
  destruct (f x) as [y|ex'] eqn:Hx; cbn [mbind outcome_bind].
  - destruct (mapM f l) as [k'|ex']; [done|]. cbn [mbind outcome_bind].
    intros [= <-]. right. by apply IH.
  - intros [= <-]. by left.
Qed.

Lemma bind_singleton_fmap {A B} (f : A → B) (l : list A) :
  (x ← l; [f x]) = f <$> l.
Proof.
  induction l as [|x l IH]; [reflexivity|].
  rewrite bind_cons, IH. reflexivity.
Qed.

Lemma process_question_eq (context : string) (qa : Squad.qa) :
  process_question tokenizer max_len (context, qa)
  = match Squad.answers qa with
    | [] => Raised IndexError
    | first_answer :: _ =>
        preprocess tokenizer max_len (example_of context qa first_answer)
    end.
Proof.
  unfold process_question. cbn [fst snd]. rewrite py_getitem_0.
  by destruct (Squad.answers qa).
Qed.

Lemma for_qas_mapM (context : string) (qas : list Squad.qa)
    (squad_examples : list SquadExample) :
  for_qas tokenizer max_len context qas squad_examples
  = l ← mapM (process_question tokenizer max_len) (pair context <$> qas);
    Returned (squad_examples ++ l).
Proof.
  revert squad_examples. induction qas as [|qa qas IH]; intros squad_examples.
  - simpl. by rewrite app_nil_r.
  - cbn [for_qas fmap list_fmap mapM].
    rewrite process_question_eq, py_getitem_0. unfold example_of.
    destruct (Squad.answers qa) as [|first_answer others]; [done|].
    cbn [mbind outcome_bind].
    destruct (preprocess tokenizer max_len _) as [squad_eg|ex]; [|done].
    cbn [mbind outcome_bind]. rewrite IH.
    destruct (mapM _ _) as [l|ex]; [|done].
    cbn [mbind outcome_bind mret outcome_ret]. by rewrite <- app_assoc.
Qed.

Lemma for_paragraphs_mapM (paragraphs : list Squad.paragraph)
    (squad_examples : list SquadExample) :
  for_paragraphs tokenizer max_len paragraphs squad_examples
  = l ← mapM (process_question tokenizer max_len)
             (para ← paragraphs; qa ← Squad.qas para; [(Squad.context para, qa)]);
    Returned (squad_examples ++ l).
Proof.
  revert squad_examples.
  induction paragraphs as [|para paragraphs IH]; intros squad_examples.
  - simpl. by rewrite app_nil_r.
  - cbn [for_paragraphs]. rewrite bind_cons, mapM_outcome_app, for_qas_mapM.
    rewrite bind_singleton_fmap.
    destruct (mapM _ (pair _ <$> _)) as [l1|ex]; [|done].
    cbn [mbind outcome_bind].
    rewrite IH. destruct (mapM _ _) as [l2|ex]; [|done].
    cbn [mbind outcome_bind]. by rewrite <- app_assoc.
Qed.

Lemma for_items_mapM (items : list Squad.article)
    (squad_examples : list SquadExample) :
  for_items tokenizer max_len items squad_examples
  = l ← mapM (process_question tokenizer max_len)
             (item ← items; para ← Squad.paragraphs item;
              qa ← Squad.qas para; [(Squad.context para, qa)]);
    Returned (squad_examples ++ l).
Proof.
  revert squad_examples.
  induction items as [|item items IH]; intros squad_examples.
  - simpl. by rewrite app_nil_r.
  - cbn [for_items]. rewrite bind_cons, mapM_outcome_app, for_paragraphs_mapM.
    destruct (mapM _ (Squad.paragraphs item ≫= _)) as [l1|ex]; [|done].
    cbn [mbind outcome_bind].
    rewrite IH. destruct (mapM _ _) as [l2|ex]; [|done].
    cbn [mbind outcome_bind]. by rewrite <- app_assoc.
Qed.

(** The loader processes the questions of the file one after the other and
    stops at the first one that raises. *)
Lemma create_squad_examples_mapM (raw_data : Squad.raw_data) :
  create_squad_examples tokenizer max_len raw_data
  = mapM (process_question tokenizer max_len) (questions_of raw_data).
Proof.
  unfold create_squad_examples, questions_of. rewrite for_items_mapM.
  by destruct (mapM _ _).
Qed.

Lemma process_question_Returned (cq : string * Squad.qa) (e : SquadExample) :
  process_question tokenizer max_len cq = Returned e ↔
  ∃ first_answer,
    head (Squad.answers cq.2) = Some first_answer
    ∧ preprocess tokenizer max_len (example_of cq.1 cq.2 first_answer)
      = Returned e.
Proof.
  unfold process_question. rewrite py_getitem_0.
  destruct (Squad.answers cq.2) as [|first_answer others] eqn:Hanswers.
  - split; [done|]. by intros (? & ? & _).
  - cbn [mbind outcome_bind head]. split.
    + intros Hrun. by exists first_answer.
    + by intros (? & [= <-] & Hrun).
Qed.

Lemma process_question_Raised (cq : string * Squad.qa) (ex : exception) :
  process_question tokenizer max_len cq = Raised ex →
  ex = IndexError
  ∧ ¬ ∃ first_answer,
        head (Squad.answers cq.2) = Some first_answer
        ∧ ¬ start_before_context (example_of cq.1 cq.2 first_answer).
Proof.
  unfold process_question. rewrite py_getitem_0.
  destruct (Squad.answers cq.2) as [|first_answer others] eqn:Hanswers.
  - intros [= <-]. split; [done|]. by intros (? & ? & _).
  - cbn [mbind outcome_bind head]. intros Hrun.
    pose proof (preprocess_Raised _ _ _ _ Hrun) as ->. split; [done|].
    intros (? & [= <-] & Hnot). apply Hnot.
    by apply (preprocess_raises_iff tokenizer max_len).
Qed.

Lemma process_question_returns (cq : string * Squad.qa)
    (first_answer : Squad.answer) :
  head (Squad.answers cq.2) = Some first_answer →
  ¬ start_before_context (example_of cq.1 cq.2 first_answer) →
  ∃ e, process_question tokenizer max_len cq = Returned e.
Proof.
  intros Hhead Hnot.
  destruct (process_question tokenizer max_len cq) as [e|ex] eqn:Hrun;
    [by exists e|].
  apply process_question_Raised in Hrun as [_ []]. by exists first_answer.
Qed.

End LoaderProperties.

Section LoaderTheorems.

Variable tokenizer : Tokenizer.
Variable max_len : Z.

Lemma create_squad_examples_Returned (raw_data : Squad.raw_data)
    (l : list SquadExample) :
  create_squad_examples tokenizer max_len raw_data = Returned l →
  Forall2 (λ cq e, ∃ first_answer,
             head (Squad.answers cq.2) = Some first_answer
             ∧ preprocess tokenizer max_len (example_of cq.1 cq.2 first_answer)
               = Returned e)
          (questions_of raw_data) l.
Proof.
  rewrite create_squad_examples_mapM. intros Hl%mapM_outcome_Returned.
  eapply Forall2_impl; [exact Hl|].
  intros cq e Hrun. by apply process_question_Returned.
Qed.

Lemma create_squad_examples_Raised (raw_data : Squad.raw_data) (ex : exception) :
  create_squad_examples tokenizer max_len raw_data = Raised ex →
  ex = IndexError
  ∧ ∃ cq, cq ∈ questions_of raw_data
          ∧ ¬ ∃ first_answer,
                head (Squad.answers cq.2) = Some first_answer
                ∧ ¬ start_before_context (example_of cq.1 cq.2 first_answer).
Proof.
  rewrite create_squad_examples_mapM.
  intros (cq & Hin & Hrun)%mapM_outcome_Raised%Exists_exists.
  apply process_question_Raised in Hrun as [-> Hnot]. split; [done|].
  by exists cq.
Qed.

(** X12. When [create_squad_examples] returns, its list holds one example per
    question of the file, in the order of the file, skipped or not: the
    example of a question carries the question, the context of its paragraph,
    the text and the start of its first answer and the texts of all its
    answers, and it has been through [preprocess]. *)
Theorem create_squad_examples_one_example_per_question
    (raw_data : Squad.raw_data) (l : list SquadExample) :
  create_squad_examples tokenizer max_len raw_data = Returned l →
  length l = length (questions_of raw_data)
  ∧ ∀ (k : nat) (cq : string * Squad.qa),
      questions_of raw_data !! k = Some cq →
      ∃ first_answer e,
        head (Squad.answers cq.2) = Some first_answer
        ∧ l !! k = Some e
        ∧ preprocess tokenizer max_len
            (init (Squad.question cq.2) cq.1 (Squad.answer_start first_answer)
               (Squad.text first_answer) (Squad.text <$> Squad.answers cq.2))
          = Returned e
        ∧ question e = Squad.question cq.2
        ∧ context e = cq.1
        ∧ start_char_idx e = Squad.answer_start first_answer
        ∧ answer_text e = Squad.text first_answer
        ∧ all_answers e = Squad.text <$> Squad.answers cq.2.
Proof.
  intros Hall%create_squad_examples_Returned. split.
  { symmetry. by eapply Forall2_length. }
  intros k cq Hk.
  destruct (Forall2_lookup_l _ _ _ _ _ Hall Hk) as (e & He & first_answer & Hhead & Hrun).
  exists first_answer, e. split; [done|]. split; [done|]. split; [done|].
  apply preprocess_Returned in Hrun
    as [->|[[-> _]|(mask & t & -> & _)]]; done.
Qed.

(** X13. A question without any answer makes [create_squad_examples] raise
    [IndexError], wherever it is in the file. *)
Theorem create_squad_examples_raises_without_answer
    (raw_data : Squad.raw_data) (cq : string * Squad.qa) :
  cq ∈ questions_of raw_data →
  Squad.answers cq.2 = [] →
  create_squad_examples tokenizer max_len raw_data = Raised IndexError.
Proof.
  intros Hin Hnone.
  destruct (create_squad_examples tokenizer max_len raw_data) as [l|ex] eqn:Hrun.
  - apply create_squad_examples_Returned in Hrun.
    apply list_elem_of_lookup in Hin as [k Hk].
    destruct (Forall2_lookup_l _ _ _ _ _ Hrun Hk) as (e & _ & first_answer & Hhead & _).
    by rewrite Hnone in Hhead.
  - by apply create_squad_examples_Raised in Hrun as [-> _].
Qed.

(** X14. [create_squad_examples] returns exactly when every question has an answer
    and [preprocess] does not raise on its example, that is, its first answer
    does not start before the character [-len(context)]; it raises nothing
    but [IndexError]. *)
Theorem create_squad_examples_raises_iff (raw_data : Squad.raw_data) :
  let loadable (cq : string * Squad.qa) :=
    ∃ first_answer,
      head (Squad.answers cq.2) = Some first_answer
      ∧ ¬ start_before_context (example_of cq.1 cq.2 first_answer) in
  match create_squad_examples tokenizer max_len raw_data with
  | Returned _ => Forall loadable (questions_of raw_data)
  | Raised ex => ex = IndexError ∧ ¬ Forall loadable (questions_of raw_data)
  end.
Proof.
  intros loadable.
  destruct (create_squad_examples tokenizer max_len raw_data) as [l|ex] eqn:Hrun.
  - apply create_squad_examples_Returned in Hrun.
    apply Forall_forall. intros cq [k Hk]%list_elem_of_lookup.
    destruct (Forall2_lookup_l _ _ _ _ _ Hrun Hk)
      as (e & _ & first_answer & Hhead & He).
    exists first_answer. split; [done|]. intros Hbefore.
    apply (preprocess_raises_iff tokenizer max_len) in Hbefore. congruence.
  - apply create_squad_examples_Raised in Hrun as (-> & cq & Hin & Hnot).
    split; [done|]. intros Hall. apply Hnot.
    by apply (proj1 (Forall_forall _ _) Hall).
Qed.

Lemma create_squad_examples_preprocessed (raw_data : Squad.raw_data)
    (l : list SquadExample) (e : SquadExample) :
  create_squad_examples tokenizer max_len raw_data = Returned l →
  e ∈ l →
  ∃ q c s a aa, preprocess tokenizer max_len (init q c s a aa) = Returned e.
Proof.
  intros Hall%create_squad_examples_Returned [k Hk]%list_elem_of_lookup.
  destruct (Forall2_lookup_r _ _ _ _ _ Hall Hk)
    as (cq & _ & first_answer & _ & Hrun).
  by eexists _, _, _, _, _.
Qed.

Lemma stored_row_length (e0 self : SquadExample) (s t : Z) (row : list Z) :
  0 ≤ padding_length_of tokenizer max_len e0 →
  input_ids (stored tokenizer max_len e0 self s t) = Some row
  ∨ token_type_ids (stored tokenizer max_len e0 self s t) = Some row
  ∨ attention_mask (stored tokenizer max_len e0 self s t) = Some row →
  Z.of_nat (length row) = max_len.
Proof.
  intros Hpad Hrow. cbn in Hrow. unfold padding_length_of in Hpad.
  assert (length (unpadded_token_type_ids tokenizer e0)
          = length (unpadded_input_ids tokenizer e0)) as Htt.
  { unfold unpadded_token_type_ids, unpadded_input_ids.
    by rewrite !length_app, !length_replicate. }
  assert (length (unpadded_attention_mask tokenizer e0)
          = length (unpadded_input_ids tokenizer e0)) as Ham.
  { unfold unpadded_attention_mask. by rewrite length_replicate. }
  destruct Hrow as [[= <-]|[[= <-]|[= <-]]];
    unfold py_repeat, padding_length_of;
    rewrite length_app, length_replicate; lia.
Qed.

Lemma collect_inputs_skipped (squad_examples : list SquadExample)
    (d : DatasetDict.t) :
  Forall (λ e, skip e = true) squad_examples →
  collect_inputs squad_examples d = Returned d.
Proof.
  induction 1 as [|item items Hskip _ IH]; [done|].
  cbn [collect_inputs]. by rewrite Hskip.
Qed.

(** X15. With a tokenizer that gives every context at least one token, the
    examples of [create_squad_examples] always go through
    [create_inputs_targets]: it returns five lists with one row per example
    that is not skipped, and every row of [input_ids], [token_type_ids] and
    [attention_mask] has length [max_len]. *)
Theorem loaded_examples_give_rectangular_arrays (raw_data : Squad.raw_data)
    (l : list SquadExample) :
  (∀ s, offsets (encode tokenizer s) ≠ []) →
  create_squad_examples tokenizer max_len raw_data = Returned l →
  ∃ x0 x1 x2 y0 y1,
    create_inputs_targets l = Returned ([x0; x1; x2], [y0; y1])
    ∧ Forall (λ row, Z.of_nat (length row) = max_len) (x0 ++ x1 ++ x2)
    ∧ length x0 = length (kept l) ∧ length x1 = length (kept l)
    ∧ length x2 = length (kept l) ∧ length y0 = length (kept l)
    ∧ length y1 = length (kept l).
Proof.
  intros Htokens Hload.
  assert (∀ e, e ∈ kept l →
            ∃ e0 t, e = stored tokenizer max_len e0 e0 0 t
                    ∧ 0 ≤ padding_length_of tokenizer max_len e0) as Hkept.
  { intros e [Hskip Hin]%list_elem_of_filter.
    destruct (create_squad_examples_preprocessed _ _ _ Hload Hin)
      as (q & c & s & a & aa & Hrun).
    destruct (preprocess_not_skipped _ _ _ _ _ _ _ _ Hrun Hskip)
      as [[_ Hnil]|(mask & t & -> & Hpad & _)].
    - by apply Htokens in Hnil.
    - by eexists _, _. }
  assert (∀ (attr : SquadExample → option (list Z)),
            (∀ e0 self t row,
               0 ≤ padding_length_of tokenizer max_len e0 →
               attr (stored tokenizer max_len e0 self 0 t) = Some row →
               Z.of_nat (length row) = max_len) →
            Forall (λ row, Z.of_nat (length row) = max_len)
                   (rows_of attr (kept l))) as Hrows.
  { intros attr Hattr. apply Forall_forall. intros row Hrow.
    apply list_elem_of_omap in Hrow as (e & Hin & He).
    apply Hkept in Hin as (e0 & t & -> & Hpad). by eapply Hattr. }
  assert (∀ rows : list (list Z),
            Forall (λ row, Z.of_nat (length row) = max_len) rows →
            uniform rows) as Huniform.
  { intros rows Hall r1 r2 Hr1 Hr2.
    pose proof (proj1 (Forall_forall _ _) Hall _ Hr1) as H1.
    pose proof (proj1 (Forall_forall _ _) Hall _ Hr2) as H2.
    simpl in H1, H2. lia. }
  pose proof (Hrows input_ids) as R0. pose proof (Hrows token_type_ids) as R1.
  pose proof (Hrows attention_mask) as R2.
  specialize (R0 ltac:(intros; eapply stored_row_length; eauto)).
  specialize (R1 ltac:(intros; eapply stored_row_length; eauto)).
  specialize (R2 ltac:(intros; eapply stored_row_length; eauto)).
  destruct (create_inputs_targets l) as [[x y]|ex] eqn:Hrun.
  2:{ apply create_inputs_targets_Raised in Hrun
        as [[_ Hnot]|(_ & _ & Hnot)]; destruct Hnot.
      - apply Forall_forall. intros e (e0 & t & -> & _)%Hkept.
        by repeat split.
      - auto. }
  apply create_inputs_targets_Returned in Hrun
    as (_ & x0 & x1 & x2 & y0 & y1 & -> & -> & E0 & E1 & E2 & E3 & E4 & _).
  exists x0, x1, x2, y0, y1. split; [done|].
  split.
  { rewrite <- (rows_of_fmap _ _ _ E0), <- (rows_of_fmap _ _ _ E1),
      <- (rows_of_fmap _ _ _ E2).
    rewrite !Forall_app. auto. }
  apply (f_equal length) in E0, E1, E2, E3, E4.
  rewrite !length_fmap in E0. rewrite !length_fmap in E1.
  rewrite !length_fmap in E2. rewrite !length_fmap in E3.
  rewrite !length_fmap in E4. done.
Qed.

(** X16. With a tokenizer whose encodings start with a token of empty span, as
    those of a BERT tokenizer, every example of [create_squad_examples] is
    skipped and [create_inputs_targets] returns empty arrays. *)
Theorem loaded_examples_are_all_skipped_after_empty_first_span
    (raw_data : Squad.raw_data) (l : list SquadExample) :
  empty_span_first tokenizer →
  create_squad_examples tokenizer max_len raw_data = Returned l →
  Forall (λ e, skip e = true) l
  ∧ create_inputs_targets l = Returned ([[]; []; []], [[]; []]).
Proof.
  intros Hfirst Hload.
  assert (Forall (λ e, skip e = true) l) as Hskipped.
  { apply Forall_forall. intros e Hin.
    destruct (create_squad_examples_preprocessed _ _ _ Hload Hin)
      as (q & c & s & a & aa & Hrun).
    by rewrite (preprocess_empty_span_first _ _ _ _ Hfirst Hrun). }
  split; [done|]. unfold create_inputs_targets.
  by rewrite collect_inputs_skipped.
Qed.

End LoaderTheorems.

(** ** The properties on concrete examples *)

(** C1. The scenario "quick" at character 4 of "The quick brown fox", with
    the offsets of a BERT tokenizer: the answer is an exact substring of the
    context, it ends before the end of the context, token 2 covers it and the
    input fits in [max_len]. [preprocess] still skips the example: at the
    first token, [CLS] with the span (0, 0), [ans_token_idx] is empty and the
    emptiness test, which sits inside the loop, returns. *)
Lemma C1_quick_is_skipped :
  substring_at fox 4 "quick"
  ∧ end_char_idx_of example_quick < py_len (clean fox)
  ∧ offsets (encode bert_like_tokenizer (clean fox)) !! 2%nat = Some (4, 9)%nat
  ∧ overlaps 4 (end_char_idx_of example_quick) (4, 9)%nat
  ∧ Z.of_nat (length (unpadded_input_ids bert_like_tokenizer example_quick))
    ≤ max_len
  ∧ preprocess bert_like_tokenizer max_len example_quick
    = Returned (set_skip example_quick)
  ∧ skip (set_skip example_quick) = true
  ∧ start_token_idx (set_skip example_quick) = None
  ∧ end_token_idx (set_skip example_quick) = None.
Proof.
  split.
  { unfold substring_at. vm_compute. repeat split; discriminate. }
  split; [vm_compute; reflexivity|]. split; [vm_compute; reflexivity|].
  split.
  { exists 4. vm_compute. repeat split; discriminate. }
  split; [vm_compute; discriminate|]. split; [vm_compute; reflexivity|].
  done.
Qed.

(** An answer that ends the context is skipped by the bounds test: "fox"
    occurs in the context at character 16 and [end_char_idx] is the length of
    the context. *)
Lemma answer_ending_the_context_is_skipped :
  substring_at fox 16 "fox"
  ∧ preprocess bert_like_tokenizer max_len example_fox
    = Returned (set_skip example_fox).
Proof.
  split.
  - unfold substring_at. vm_compute. repeat split; discriminate.
  - vm_compute. reflexivity.
Qed.

(** C2: with a tokenized context without tokens, [preprocess] returns the
    example as it was built: not skipped and without any derived attribute.
    [create_inputs_targets] then raises [AttributeError] on it. *)
Lemma C2_no_token_leaves_example_untouched :
  offsets (encode empty_tokenizer (clean fox)) = []
  ∧ preprocess empty_tokenizer max_len example_quick = Returned example_quick
  ∧ skip example_quick = false
  ∧ no_derived example_quick
  ∧ ¬ fully_aligned example_quick
  ∧ ¬ (skip example_quick = true ∧ no_derived example_quick)
  ∧ create_inputs_targets [example_quick] = Raised AttributeError.
Proof.
  split; [done|]. split; [vm_compute; reflexivity|]. split; [done|].
  split; [by repeat split|]. split; [|split].
  - intros (_ & [? Hii] & _). discriminate.
  - intros [? _]. discriminate.
  - vm_compute. reflexivity.
Qed.

Lemma C3_witness :
  preprocess bert_like_tokenizer max_len example_gap
  = Returned (set_skip example_gap)
  ∧ skip (set_skip example_gap) = true ∧ no_derived (set_skip example_gap).
Proof.
  apply (C3_no_answer_token_is_skipped bert_like_tokenizer max_len
           "What is quick?" fox 3 "-" ["-"%string]).
  - lia.
  - vm_compute. discriminate.
  - assert (offsets (encode bert_like_tokenizer (clean fox))
            = [(0, 0); (0, 3); (4, 9); (10, 15); (16, 19); (0, 0)]%nat) as ->
      by (vm_compute; reflexivity).
    assert (py_len (clean "-") = 1) as -> by (vm_compute; reflexivity).
    apply Forall_forall.
    repeat constructor; intros (p & ? & ?); simpl in *; lia.
Defined.

(** C3 fails as stated for a negative start: no token overlaps the answer
    interval [[-5, -4)], and the example is aligned on token 0. *)
Lemma C3_counterexample :
  (∀ tok, tok ∈ offsets (encode word_tokenizer (clean "abcde")) →
          ¬ overlaps (-5) (-5 + py_len (clean "a")) tok)
  ∧ ∃ e', preprocess word_tokenizer max_len example_wrapped = Returned e'
          ∧ skip e' = false ∧ start_token_idx e' = Some 0.
Proof.
  split.
  - assert (offsets (encode word_tokenizer (clean "abcde")) = [(0, 5)%nat])
      as -> by (vm_compute; reflexivity).
    assert (py_len (clean "a") = 1) as -> by (vm_compute; reflexivity).
    apply Forall_forall.
    repeat constructor; intros (p & ? & ?); simpl in *; lia.
  - eexists. split; [vm_compute; reflexivity|]. by split.
Qed.

Lemma C4_witness :
  preprocess bert_like_tokenizer max_len example_far
  = Returned (set_skip example_far)
  ∧ skip (set_skip example_far) = true.
Proof.
  apply (C4_out_of_bounds_is_skipped bert_like_tokenizer max_len example_far).
  vm_compute. discriminate.
Defined.

Lemma C5_witness :
  ∃ i j : Z,
    start_token_idx aligned_the_quick = Some i
    ∧ end_token_idx aligned_the_quick = Some j
    ∧ first_overlap 0 9 (offsets (encode word_tokenizer (clean fox))) i
    ∧ last_overlap 0 9 (offsets (encode word_tokenizer (clean fox))) j
    ∧ head (answer_tokens 0 9 (offsets (encode word_tokenizer (clean fox))))
      = Some i
    ∧ last (answer_tokens 0 9 (offsets (encode word_tokenizer (clean fox))))
      = Some j.
Proof.
  apply (C5_first_and_last_answer_token word_tokenizer max_len
           "What is quick?" fox 0 "The quick" ["The quick"%string]
           aligned_the_quick).
  - lia.
  - vm_compute. reflexivity.
  - vm_compute. reflexivity.
  - vm_compute. discriminate.
Defined.

(** C5 fails as stated for a negative start: the example is aligned with
    [start_token_idx = 0], but token 0 does not overlap the answer interval
    [[-5, -4)] and the list of the overlapping tokens is empty. *)
Lemma C5_counterexample :
  (∃ e', preprocess word_tokenizer max_len example_wrapped = Returned e'
         ∧ skip e' = false ∧ start_token_idx e' = Some 0)
  ∧ ¬ first_overlap (-5) (-5 + py_len (clean "a"))
        (offsets (encode word_tokenizer (clean "abcde"))) 0
  ∧ head (answer_tokens (-5) (-5 + py_len (clean "a"))
            (offsets (encode word_tokenizer (clean "abcde")))) = None.
Proof.
  split; [|split].
  - eexists. split; [vm_compute; reflexivity|]. by split.
  - intros (_ & (tok & Htok & (p & Hp & Hq)) & _).
    assert (py_len (clean "a") = 1) as Hlen by (vm_compute; reflexivity).
    rewrite Hlen in Hq. vm_compute in Htok. injection Htok as <-.
    simpl in Hp. lia.
  - vm_compute. reflexivity.
Qed.

(** C6. With a tokenized context without tokens the result of [preprocess]
    is not skipped and has no [input_ids], no [token_type_ids] and no
    [attention_mask]: the loop body, which builds and assigns them, never
    runs. *)
Lemma C6_no_token_has_no_inputs :
  offsets (encode empty_tokenizer (clean fox)) = []
  ∧ preprocess empty_tokenizer max_len example_quick = Returned example_quick
  ∧ skip example_quick = false
  ∧ input_ids example_quick = None
  ∧ token_type_ids example_quick = None
  ∧ attention_mask example_quick = None.
Proof.
  split; [done|]. split; [vm_compute; reflexivity|]. done.
Qed.

Lemma C7_witness :
  (∃ ii tt am : list Z,
     input_ids aligned_the_quick = Some ii
     ∧ token_type_ids aligned_the_quick = Some tt
     ∧ attention_mask aligned_the_quick = Some am
     ∧ Forall (λ l : list Z,
                 Z.of_nat (length l) = max_len
                 ∧ ∀ k : nat, (6 ≤ k < length l)%nat → l !! k = Some 0)
              [ii; tt; am])
  ∧ preprocess word_tokenizer max_len example_long
    = Returned (set_skip example_long).
Proof.
  split.
  - apply (proj1 (C7_padding_and_overflow word_tokenizer max_len
                    "What is quick?" fox 0 "The quick" ["The quick"%string])
             aligned_the_quick).
    + vm_compute. reflexivity.
    + vm_compute. reflexivity.
    + vm_compute. discriminate.
  - apply (proj2 (C7_padding_and_overflow word_tokenizer max_len
                    "Which letter?" (words_a 400) 0 "a" ["a"%string])).
    + vm_compute. discriminate.
    + vm_compute. discriminate.
    + vm_compute. reflexivity.
Defined.

(** C7 fails as stated for a start before the first character: the unpadded
    input is longer than [max_len] and [preprocess] raises [IndexError]
    instead of marking the example as skipped. *)
Lemma C7_counterexample :
  max_len < Z.of_nat (length (unpadded_input_ids word_tokenizer example_long_before))
  ∧ preprocess word_tokenizer max_len example_long_before = Raised IndexError.
Proof. split; vm_compute; reflexivity. Qed.



Lemma C9_witness :
  preprocess word_tokenizer max_len aligned_the_quick = Returned aligned_the_quick
  ∧ question aligned_the_quick = question example_the_quick
  ∧ context aligned_the_quick = context example_the_quick
  ∧ start_char_idx aligned_the_quick = start_char_idx example_the_quick
  ∧ answer_text aligned_the_quick = answer_text example_the_quick
  ∧ all_answers aligned_the_quick = all_answers example_the_quick.
Proof.
  apply (proj2 (C9_deterministic_and_idempotent word_tokenizer max_len)
           example_the_quick aligned_the_quick).
  vm_compute. reflexivity.
Defined.

(** The scenario of the notebook: with the offsets of a BERT tokenizer the
    first token is [CLS] with the span (0, 0), so the answer "quick" at
    character 4 is skipped although token 2 covers it. *)
Lemma C10_witness :
  overlaps 4 9 (4, 9)%nat
  ∧ offsets (encode bert_like_tokenizer (clean fox)) !! 2%nat = Some (4, 9)%nat
  ∧ preprocess bert_like_tokenizer max_len example_quick
    = Returned (set_skip example_quick)
  ∧ skip (set_skip example_quick) = true.
Proof.
  split; [exists 4; simpl; lia|]. split; [vm_compute; reflexivity|].
  apply (C10_first_token_decides bert_like_tokenizer max_len example_quick
           (0, 0)%nat
           [(0, 3); (4, 9); (10, 15); (16, 19); (0, 0)]%nat).
  - vm_compute. discriminate.
  - vm_compute. reflexivity.
  - intros (p & ? & ?). simpl in *. lia.
Defined.

(** C10 fails as stated for a start before the first character: the first
    token does not overlap the answer interval [[-10, -9)], and [preprocess]
    raises [IndexError] instead of setting [skip]. *)
Lemma C10_counterexample :
  offsets (encode bert_like_tokenizer (clean "abc")) = [(0, 0); (0, 3); (0, 0)]%nat
  ∧ ¬ overlaps (-10) (-10 + py_len (clean "a")) (0, 0)%nat
  ∧ preprocess bert_like_tokenizer max_len example_before = Raised IndexError.
Proof.
  split; [vm_compute; reflexivity|]. split; [|vm_compute; reflexivity].
  intros (p & ? & ?). simpl in *. lia.
Qed.

(** ** The further properties on concrete examples *)

Lemma clean_keeps_clean_text_witness :
  py_split (py_join " " ["The"; "quick"]%string) = ["The"; "quick"]%string
  ∧ clean (py_join " " ["The"; "quick"]%string)
    = py_join " " ["The"; "quick"]%string.
Proof.
  apply clean_keeps_clean_text.
  apply Forall_cons. split; [split; [discriminate|reflexivity]|].
  apply Forall_cons. split; [split; [discriminate|reflexivity]|].
  apply Forall_nil_2.
Defined.

Lemma preprocess_aligns_iff_witness :
  ∃ e', preprocess word_tokenizer max_len
          (init "What is quick?" fox 0 "The quick" ["The quick"%string])
        = Returned e'
        ∧ fully_aligned e'.
Proof.
  apply (proj2 (preprocess_aligns_iff word_tokenizer max_len
                  "What is quick?" fox 0 "The quick" ["The quick"%string]
                  ltac:(lia))).
  split; [vm_compute; reflexivity|]. split; [|vm_compute; discriminate].
  exists (0, 3)%nat, [(4, 9); (10, 15); (16, 19)]%nat.
  split; [vm_compute; reflexivity|].
  exists 0. vm_compute. repeat split; discriminate.
Defined.

Lemma preprocess_start_token_is_first_token_witness :
  start_token_idx aligned_the_quick = Some 0
  ∧ context_token_to_char aligned_the_quick
    = Some (offsets (encode word_tokenizer (clean fox))).
Proof.
  apply (preprocess_start_token_is_first_token word_tokenizer max_len
           "What is quick?" fox 0 "The quick" ["The quick"%string]
           aligned_the_quick).
  - vm_compute. reflexivity.
  - vm_compute. reflexivity.
  - vm_compute. discriminate.
Defined.

Lemma preprocess_skips_everything_after_empty_first_span_witness :
  returned (preprocess bert_like_tokenizer max_len example_the_quick)
    example_the_quick
  = set_skip example_the_quick
  ∧ skip (returned (preprocess bert_like_tokenizer max_len example_the_quick)
            example_the_quick) = true.
Proof.
  apply (preprocess_skips_everything_after_empty_first_span
           bert_like_tokenizer max_len example_the_quick).
  - intros s. exists 0%nat, 0%nat. eexists. split; [reflexivity|lia].
  - vm_compute. reflexivity.
Defined.

Lemma preprocess_skips_empty_answer_witness :
  preprocess sep_tokenizer max_len example_blank
  = Returned (set_skip example_blank).
Proof.
  apply (preprocess_skips_empty_answer sep_tokenizer max_len example_blank).
  - vm_compute. reflexivity.
  - vm_compute. discriminate.
Defined.

Lemma create_inputs_targets_rows_witness :
  ∃ x0 x1 x2 y0 y1,
    sep_arrays.1 = [x0; x1; x2] ∧ sep_arrays.2 = [y0; y1]
    ∧ Some <$> x0 = input_ids <$> kept sep_examples
    ∧ Some <$> x1 = token_type_ids <$> kept sep_examples
    ∧ Some <$> x2 = attention_mask <$> kept sep_examples
    ∧ Some <$> y0 = start_token_idx <$> kept sep_examples
    ∧ Some <$> y1 = end_token_idx <$> kept sep_examples.
Proof.
  apply (create_inputs_targets_rows sep_examples sep_arrays.1 sep_arrays.2).
  vm_compute. reflexivity.
Defined.

Lemma create_squad_examples_one_example_per_question_witness :
  length sample_examples = length (questions_of sample_raw_data)
  ∧ ∀ (k : nat) (cq : string * Squad.qa),
      questions_of sample_raw_data !! k = Some cq →
      ∃ first_answer e,
        head (Squad.answers cq.2) = Some first_answer
        ∧ sample_examples !! k = Some e
        ∧ preprocess word_tokenizer max_len
            (init (Squad.question cq.2) cq.1 (Squad.answer_start first_answer)
               (Squad.text first_answer) (Squad.text <$> Squad.answers cq.2))
          = Returned e
        ∧ question e = Squad.question cq.2
        ∧ context e = cq.1
        ∧ start_char_idx e = Squad.answer_start first_answer
        ∧ answer_text e = Squad.text first_answer
        ∧ all_answers e = Squad.text <$> Squad.answers cq.2.
Proof.
  apply (create_squad_examples_one_example_per_question word_tokenizer max_len
           sample_raw_data sample_examples).
  vm_compute. reflexivity.
Defined.

Lemma create_squad_examples_raises_without_answer_witness :
  create_squad_examples bert_like_tokenizer max_len unanswerable_raw_data
  = Raised IndexError.
Proof.
  apply (create_squad_examples_raises_without_answer bert_like_tokenizer
           max_len unanswerable_raw_data
           (fox, {| Squad.question := "Who sleeps?"; Squad.answers := [] |})).
  - vm_compute. left.
  - reflexivity.
Defined.

Lemma loaded_examples_give_rectangular_arrays_witness :
  ∃ x0 x1 x2 y0 y1,
    create_inputs_targets sep_examples = Returned ([x0; x1; x2], [y0; y1])
    ∧ Forall (λ row, Z.of_nat (length row) = max_len) (x0 ++ x1 ++ x2)
    ∧ length x0 = length (kept sep_examples)
    ∧ length x1 = length (kept sep_examples)
    ∧ length x2 = length (kept sep_examples)
    ∧ length y0 = length (kept sep_examples)
    ∧ length y1 = length (kept sep_examples).
Proof.
  apply (loaded_examples_give_rectangular_arrays sep_tokenizer max_len
           sample_raw_data sep_examples).
  - intros s. simpl. destruct (word_spans 0 None s); discriminate.
  - vm_compute. reflexivity.
Defined.

Lemma loaded_examples_are_all_skipped_after_empty_first_span_witness :
  Forall (λ e, skip e = true) bert_examples
  ∧ create_inputs_targets bert_examples = Returned ([[]; []; []], [[]; []]).
Proof.
  apply (loaded_examples_are_all_skipped_after_empty_first_span
           bert_like_tokenizer max_len sample_raw_data bert_examples).
  - intros s. exists 0%nat, 0%nat. eexists. split; [reflexivity|lia].
  - vm_compute. reflexivity.
Defined.
